(** * Panoptic-segmentation adapters: a shallow embedding and its properties

    Source: [src/tasks/panoptic_segmentation/adapters.py].

    The adapters move dictionaries of batched tensors around.  Python
    dictionaries are finite maps from strings ([gmap string _]), raised
    exceptions are the [Raise] branch of a small error monad, and a torch
    tensor is a shape together with its row-major data, which is all that
    indexing along the leading axis and [argmax] over the last axis consult.
    Scores are integers here: [argmax] only compares them. *)

From Stdlib Require Import ZArith Ascii.
From stdpp Require Import gmap strings list fin_maps.

Local Open Scope Z_scope.
Local Open Scope nat_scope.

(** ** Exceptions and the error monad *)

Inductive pykey :=
  | KStr (s : string)
  | KInt (i : nat).

Inductive exn :=
  | KeyError (k : pykey)
  | AttributeError (name : string)
  | IndexError
  | TypeError
  | ValueError (msg : string).

Inductive result (A : Type) :=
  | Ok (a : A)
  | Raise (e : exn).
Arguments Ok {A} a.
Arguments Raise {A} e.

#[global] Instance result_ret : MRet result := λ A a, Ok a.
#[global] Instance result_bind : MBind result := λ A B f m,
  match m with
  | Ok a => f a
  | Raise e => Raise e
  end.

#[global] Instance result_fmap : FMap result := λ A B f m,
  match m with
  | Ok a => Ok (f a)
  | Raise e => Raise e
  end.

Definition is_ok {A} (r : result A) : bool :=
  match r with Ok _ => true | Raise _ => false end.

(** ** Tensors *)

Module Tensor.

Record t := mk { shape : list nat; data : list Z }.

Definition numel (sh : list nat) : nat := foldr Nat.mul 1 sh.

Definition wf (x : t) : Prop := length (data x) = numel (shape x).

(** [x.shape[0]]: a 0-dim tensor has an empty shape tuple. *)
Definition shape0 (x : t) : result nat :=
  match shape x with
  | [] => Raise IndexError
  | n :: _ => Ok n
  end.

(** The sub-tensor at position [i] of the leading axis. *)
Definition slice (x : t) (i : nat) : t :=
  let rest := tail (shape x) in
  let stride := numel rest in
  mk rest (take stride (drop (i * stride) (data x))).

(** [x[i]] for an integer [i >= 0]. *)
Definition getitem (x : t) (i : nat) : result t :=
  match shape x with
  | [] => Raise IndexError
  | n :: _ => if decide (i < n) then Ok (slice x i) else Raise IndexError
  end.

(** Position of the first maximum of a row. *)
Fixpoint argmax_from (best_i : nat) (best : Z) (i : nat) (row : list Z) : nat :=
  match row with
  | [] => best_i
  | v :: row' =>
      if (best <? v)%Z then argmax_from i v (S i) row'
      else argmax_from best_i best (S i) row'
  end.

Definition argmax_row (row : list Z) : nat :=
  match row with
  | [] => 0
  | v :: row' => argmax_from 0 v 1 row'
  end.

(** The reduction over the last axis, for a last axis of size [k]. *)
Definition argmax_rows (k : nat) (x : t) : t :=
  let outer := removelast (shape x) in
  mk outer
     (map (λ j, Z.of_nat (argmax_row (take k (drop (j * k) (data x)))))
          (seq 0 (numel outer))).

(** The tensor [torch.argmax(x, dim=-1)] evaluates to when it does not
    raise: a 0-dim tensor reduces to index 0. *)
Definition argmax_values (x : t) : t :=
  match last (shape x) with
  | None => mk [] [0%Z]
  | Some k => argmax_rows k x
  end.

(** [torch.argmax(x, dim=-1)]: an empty reduction axis is refused. *)
Definition argmax_last (x : t) : result t :=
  match last (shape x) with
  | Some 0 => Raise IndexError
  | _ => Ok (argmax_values x)
  end.

(** Size of the leading (batch) axis, when there is one. *)
Definition leading (x : t) : option nat := head (shape x).

(** The axis reduced by [argmax] on every [x[i]] has at least one entry. *)
Definition class_axis_nonempty (x : t) : Prop :=
  last (tail (shape x)) ≠ Some 0.

End Tensor.

(** ** Python values held by the dictionaries *)

Inductive value :=
  | VNone
  | VTensor (x : Tensor.t)
  | VDict (d : gmap string Tensor.t).

Abbreviation dict := (gmap string value).

Definition is_none (v : value) : bool :=
  match v with VNone => true | _ => false end.

(** [v.shape[0]] *)
Definition shape0 (v : value) : result nat :=
  match v with
  | VTensor x => Tensor.shape0 x
  | VNone | VDict _ => Raise (AttributeError "shape")
  end.

(** [v[i]] for a loop index [i]. *)
Definition getitem (v : value) (i : nat) : result value :=
  match v with
  | VTensor x => VTensor <$> Tensor.getitem x i
  | VNone => Raise TypeError
  | VDict _ => Raise (KeyError (KInt i))
  end.

(** ** Raw model outputs

    [adapt_output] reaches into its argument both by attribute
    ([getattr(outputs, name, default)], [outputs.name]) and, when the argument
    is a [dict] instance, by key ([outputs.get(name)]).  A raw output is
    therefore its attribute table together with its items when it is a
    mapping: a plain object has no items, a plain [dict] has none of the
    attributes read here, a Hugging Face [ModelOutput] has both. *)

Record raw_output := mk_raw {
  attrs : dict;
  items : option dict
}.

Definition plain_object (a : dict) : raw_output := mk_raw a None.
Definition plain_dict (d : dict) : raw_output := mk_raw ∅ (Some d).
Definition model_output (d : dict) : raw_output := mk_raw d (Some d).

(** [getattr(outputs, name, dflt)] *)
Definition getattr_default (outputs : raw_output) (name : string) (dflt : value) : value :=
  default dflt (attrs outputs !! name).

(** [outputs.name] *)
Definition getattr (outputs : raw_output) (name : string) : result value :=
  match attrs outputs !! name with
  | Some v => Ok v
  | None => Raise (AttributeError name)
  end.

(** [isinstance(outputs, dict)] *)
Definition isinstance_dict (outputs : raw_output) : bool :=
  match items outputs with Some _ => true | None => false end.

(** [d.get(key)] and [d.get(key, None)] *)
Definition dict_get (d : dict) (key : string) : value :=
  default VNone (d !! key).

(** [outputs.get(key)], reached only when [outputs] is a [dict] instance. *)
Definition raw_get (outputs : raw_output) (key : string) : value :=
  dict_get (default ∅ (items outputs)) key.

(** [d[key]] *)
Definition subscript (d : dict) (key : string) : result value :=
  match d !! key with
  | Some v => Ok v
  | None => Raise (KeyError (KStr key))
  end.

(** [for i in range(n): result.append(body(i))], started from [result]. *)
Fixpoint for_append {A} (body : nat → result A) (idx : list nat) (acc : list A)
  : result (list A) :=
  match idx with
  | [] => Ok acc
  | i :: idx' => r ← body i; for_append body idx' (acc ++ [r])
  end.

Definition for_range {A} (n : nat) (body : nat → result A) : result (list A) :=
  for_append body (seq 0 n) [].

(** ** PanopticSegmentationOutputAdapter *)

Definition adapt_output (outputs : raw_output) : result dict :=
  let loss := getattr_default outputs "loss" VNone in
  let loss :=
    if is_none loss && isinstance_dict outputs then raw_get outputs "loss"
    else loss in
  logits ← getattr outputs "logits";
  pred_boxes ← getattr outputs "pred_boxes";
  pred_masks ← getattr outputs "pred_masks";
  pred_panoptic_seg ← getattr outputs "pred_panoptic_seg";
  let loss_dict := getattr_default outputs "loss_dict" (VDict ∅) in
  Ok (<["loss" := loss]>
      (<["logits" := logits]>
      (<["pred_boxes" := pred_boxes]>
      (<["pred_masks" := pred_masks]>
      (<["pred_panoptic_seg" := pred_panoptic_seg]>
      (<["loss_dict" := loss_dict]> ∅)))))).

Definition adapt_targets (targets : dict) : result dict :=
  let adapted_targets : dict := ∅ in
  let adapted_targets :=
    match targets !! "panoptic_masks" with
    | Some v => <["labels" := v]> adapted_targets
    | None =>
        match targets !! "labels" with
        | Some v => <["labels" := v]> adapted_targets
        | None => adapted_targets
        end
    end in
  let adapted_targets :=
    match targets !! "bounding_boxes" with
    | Some v => <["boxes" := v]> adapted_targets
    | None => adapted_targets
    end in
  let adapted_targets :=
    match targets !! "class_labels" with
    | Some v => <["class_labels" := v]> adapted_targets
    | None => adapted_targets
    end in
  Ok adapted_targets.

(** [torch.argmax(v, dim=-1)] on a value already obtained by indexing. *)
Definition argmax (v : value) : result value :=
  match v with
  | VTensor x => VTensor <$> Tensor.argmax_last x
  | VNone | VDict _ => Raise TypeError
  end.

Definition format_predictions (outputs : dict) : result (list dict) :=
  logits ← subscript outputs "logits";
  pred_boxes ← subscript outputs "pred_boxes";
  pred_masks ← subscript outputs "pred_masks";
  pred_panoptic_seg ← subscript outputs "pred_panoptic_seg";
  n ← shape0 logits;
  for_range n (λ i,
    panoptic ← getitem pred_panoptic_seg i;
    instance ← getitem pred_masks i;
    boxes ← getitem pred_boxes i;
    row ← getitem logits i;
    classes ← argmax row;
    Ok (<["panoptic_masks" := panoptic]>
        (<["instance_masks" := instance]>
        (<["bounding_boxes" := boxes]>
        (<["class_predictions" := classes]> ∅))))).

Definition missing_masks_message : string :=
  "Targets must contain 'panoptic_masks' or 'labels'".

Definition format_targets (targets : dict) : result (list dict) :=
  masks ←
    match targets !! "panoptic_masks" with
    | Some v => Ok v
    | None =>
        match targets !! "labels" with
        | Some v => Ok v
        | None => Raise (ValueError missing_masks_message)
        end
    end;
  let boxes := dict_get targets "bounding_boxes" in
  let class_labels := dict_get targets "class_labels" in
  n ← shape0 masks;
  for_range n (λ i,
    m ← getitem masks i;
    let target_dict : dict := <["panoptic_masks" := m]> ∅ in
    target_dict ←
      (if is_none boxes then Ok target_dict
       else b ← getitem boxes i; Ok (<["bounding_boxes" := b]> target_dict));
    target_dict ←
      (if is_none class_labels then Ok target_dict
       else c ← getitem class_labels i; Ok (<["class_labels" := c]> target_dict));
    Ok target_dict).

(** ** Strings: [str.lower] and the [in] test

    A Python string is held as the bytes of its UTF-8 encoding.
    [str.lower] replaces every ASCII character by itself, the letters
    [A-Z] by [a-z], whatever surrounds it.  What it puts in place of the
    other characters is decided by the Unicode case tables and, for the
    capital sigma, by the neighbouring characters; that part of the Python
    runtime is a parameter [unicode_lower before byte after], the bytes
    that stand in the result for the non-ASCII byte [byte] found between
    [before] and [after]. *)

Definition is_ascii_byte (c : ascii) : bool := nat_of_ascii c <? 128.

Fixpoint str_is_ascii (s : string) : bool :=
  match s with
  | EmptyString => true
  | String c s' => is_ascii_byte c && str_is_ascii s'
  end.

(** [str.lower] on one ASCII character. *)
Definition ascii_lower (c : ascii) : ascii :=
  let n := nat_of_ascii c in
  if (65 <=? n) && (n <=? 90) then ascii_of_nat (n + 32) else c.

(** [s.lower()] for a string [s] of ASCII characters.  On other strings
    this is the folding of the ASCII letters alone, which is what "the same
    up to the case of the letters A-Z" refers to below; [py_lower] is
    [s.lower()] for every string. *)
Fixpoint str_lower (s : string) : string :=
  match s with
  | EmptyString => EmptyString
  | String c s' => String (ascii_lower c) (str_lower s')
  end.

(** What [str.lower] makes of the part [s] of a string in which [s] stands
    between [before] and [after]. *)
Fixpoint lower_from (unicode_lower : string → ascii → string → string)
    (before s after : string) : string :=
  match s with
  | EmptyString => EmptyString
  | String c s' =>
      (if is_ascii_byte c then String (ascii_lower c) EmptyString
       else unicode_lower before c (s' +:+ after))
      +:+ lower_from unicode_lower (before +:+ String c EmptyString) s' after
  end.

(** [s.lower()] *)
Definition py_lower (unicode_lower : string → ascii → string → string)
    (s : string) : string :=
  lower_from unicode_lower EmptyString s EmptyString.

Fixpoint str_prefix (p s : string) : bool :=
  match p, s with
  | EmptyString, _ => true
  | String a p', String b s' => bool_decide (a = b) && str_prefix p' s'
  | String _ _, EmptyString => false
  end.

(** [sub in s] *)
Fixpoint str_contains (sub s : string) : bool :=
  str_prefix sub s ||
  match s with
  | EmptyString => false
  | String _ s' => str_contains sub s'
  end.

(** ** Adapter selection *)

Inductive OutputAdapter := PanopticSegmentationOutputAdapter.

Definition default_image_size : Z := 512.

Section Selectors.

(** The image processor and its loader [AutoImageProcessor.from_pretrained]
    belong to the transformers library; loading may raise. *)
Context {processor : Type}.
Variable from_pretrained : string → Z → result processor.

(** [str.lower] on the characters outside ASCII. *)
Variable unicode_lower : string → ascii → string → string.

Inductive BaseAdapter :=
  | NoOpInputAdapter
  | Mask2FormerInputAdapter (image_size : Z) (proc : processor).

(** [Mask2FormerInputAdapter(model_name, image_size)], with the default of
    [__init__] applied when the second argument is left out. *)
Definition new_Mask2FormerInputAdapter (model_name : string) (image_size : option Z)
  : result BaseAdapter :=
  let image_size := default default_image_size image_size in
  proc ← from_pretrained model_name image_size;
  Ok (Mask2FormerInputAdapter image_size proc).

Definition get_input_adapter (model_name : string) (image_size : option Z)
  : result BaseAdapter :=
  let image_size := default default_image_size image_size in
  let model_name_lower := py_lower unicode_lower model_name in
  if str_contains "mask2former" model_name_lower
  then new_Mask2FormerInputAdapter model_name (Some image_size)
  else Ok NoOpInputAdapter.

Definition get_output_adapter (model_name : string) : result OutputAdapter :=
  Ok PanopticSegmentationOutputAdapter.

Definition get_panoptic_adapter (model_name : string) (image_size : option Z)
  : result BaseAdapter :=
  let image_size := default default_image_size image_size in
  get_input_adapter model_name (Some image_size).

End Selectors.

Arguments NoOpInputAdapter {processor}.
Arguments Mask2FormerInputAdapter {processor} image_size proc.

(** ** What the per-sample records are expected to be *)

(** Record [i] of a prediction batch: every field sliced at [i]. *)
Definition prediction_record (logits pred_boxes pred_masks pred_panoptic_seg : Tensor.t)
    (i : nat) : dict :=
  <["panoptic_masks" := VTensor (Tensor.slice pred_panoptic_seg i)]>
  (<["instance_masks" := VTensor (Tensor.slice pred_masks i)]>
  (<["bounding_boxes" := VTensor (Tensor.slice pred_boxes i)]>
  (<["class_predictions" :=
       VTensor (Tensor.argmax_values (Tensor.slice logits i))]> ∅))).

(** An optional target field sliced at [i]: missing and [None] fields give
    no entry. *)
Definition slice_field (field : option value) (i : nat) : option value :=
  match field with
  | Some (VTensor x) => Some (VTensor (Tensor.slice x i))
  | _ => None
  end.

Definition with_field (key : string) (field : option value) (d : dict) : dict :=
  match field with
  | Some v => <[key := v]> d
  | None => d
  end.

(** Record [i] of a target batch. *)
Definition target_record (masks : Tensor.t) (boxes class_labels : option value)
    (i : nat) : dict :=
  with_field "class_labels" (slice_field class_labels i)
    (with_field "bounding_boxes" (slice_field boxes i)
       (<["panoptic_masks" := VTensor (Tensor.slice masks i)]> ∅)).

(** An optional target field that is missing, [None], or batched with
    leading dimension [N]. *)
Definition optional_batch (N : nat) (field : option value) : Prop :=
  field = None ∨ field = Some VNone ∨
  ∃ x, field = Some (VTensor x) ∧ Tensor.leading x = Some N.

(** The mask tensor [format_targets] and [adapt_targets] are documented to
    accept under either key. *)
Definition has_masks (targets : dict) (masks : value) : Prop :=
  targets !! "panoptic_masks" = Some masks ∨
  (targets !! "panoptic_masks" = None ∧ targets !! "labels" = Some masks).

(** ** Reading the operations *)

(** The four prediction fields [adapt_output] reads as attributes, in the
    order it reads them. *)
Definition prediction_fields : list string :=
  ["logits"; "pred_boxes"; "pred_masks"; "pred_panoptic_seg"].

(** The first prediction field that is not an attribute of [outputs]. *)
Definition first_missing_attr (outputs : raw_output) : option string :=
  List.find (λ name, bool_decide (attrs outputs !! name = None)) prediction_fields.

(** The raw output exposes [name], by attribute or by key. *)
Definition exposes (outputs : raw_output) (name : string) : Prop :=
  is_Some (attrs outputs !! name) ∨
  ∃ d, items outputs = Some d ∧ is_Some (d !! name).

(** The keys [adapt_targets] can write, with the input keys each is read
    from, in order of preference. *)
Definition adapted_labels (targets : dict) : option value :=
  match targets !! "panoptic_masks" with
  | Some v => Some v
  | None => targets !! "labels"
  end.

(** [pattern] occurs in [name] up to the case of the letters [A-Z]. *)
Definition occurs_ignoring_case (pattern name : string) : Prop :=
  ∃ pre mid post, name = pre +:+ mid +:+ post ∧ str_lower mid = str_lower pattern.

(** ** Selection as a registry lookup

    The specification describes the selector as the first match, by
    case-insensitive substring test, in an ordered registry of patterns and
    constructors, with a default variant.  [select_input_adapter] is that
    description; [get_input_adapter] is compared with it below. *)

Inductive variant_kind := Identity | ModelFamilySpecific.

Definition adapter_kind {processor} (a : @BaseAdapter processor) : variant_kind :=
  match a with
  | NoOpInputAdapter => Identity
  | Mask2FormerInputAdapter _ _ => ModelFamilySpecific
  end.

Section Registry.

Context {processor : Type}.
Variable from_pretrained : string → Z → result processor.
Variable unicode_lower : string → ascii → string → string.

Definition case_insensitive_substring (pattern name : string) : bool :=
  str_contains (py_lower unicode_lower pattern) (py_lower unicode_lower name).

Fixpoint first_match {C} (registry : list (string * C)) (name : string) : option C :=
  match registry with
  | [] => None
  | (pattern, constructor) :: registry' =>
      if case_insensitive_substring pattern name then Some constructor
      else first_match registry' name
  end.

Definition input_registry : list (string * (string → Z → result (@BaseAdapter processor))) :=
  [("mask2former",
    λ name size, new_Mask2FormerInputAdapter from_pretrained name (Some size))].

Definition select_input_adapter (model_name : string) (image_size : Z)
  : result (@BaseAdapter processor) :=
  match first_match input_registry model_name with
  | Some constructor => constructor model_name image_size
  | None => Ok NoOpInputAdapter
  end.

End Registry.

(** ** Sample data *)

Module Sample.

(** Two samples, one query, three classes. *)
Definition logits : Tensor.t := Tensor.mk [2; 1; 3] [1; 5; 2; 7; 0; 3]%Z.
Definition pred_boxes : Tensor.t := Tensor.mk [2; 1; 4] [0; 0; 4; 4; 1; 1; 3; 3]%Z.
Definition pred_masks : Tensor.t := Tensor.mk [2; 1; 2] [1; 0; 0; 1]%Z.
Definition pred_panoptic_seg : Tensor.t := Tensor.mk [2; 2] [3; 3; 4; 4]%Z.

(** One sample only. *)
Definition logits1 : Tensor.t := Tensor.mk [1; 1; 3] [1; 5; 2]%Z.
Definition pred_boxes1 : Tensor.t := Tensor.mk [1; 1; 4] [0; 0; 4; 4]%Z.

Definition fields : dict :=
  <["logits" := VTensor logits]>
  (<["pred_boxes" := VTensor pred_boxes]>
  (<["pred_masks" := VTensor pred_masks]>
  (<["pred_panoptic_seg" := VTensor pred_panoptic_seg]> ∅))).

Definition fields_with_loss : dict :=
  <["loss" := VTensor (Tensor.mk [] [9%Z])]> fields.

(** [logits] for one sample, the other fields for two. *)
Definition long_fields : dict := <["logits" := VTensor logits1]> fields.

(** [pred_boxes] for one sample, the other fields for two. *)
Definition short_fields : dict := <["pred_boxes" := VTensor pred_boxes1]> fields.

Definition boxes_only : dict := <["bounding_boxes" := VTensor pred_boxes]> ∅.

Definition masks_and_boxes : dict :=
  <["panoptic_masks" := VTensor pred_panoptic_seg]> boxes_only.

Definition masks_and_labels : dict :=
  <["labels" := VTensor pred_masks]> masks_and_boxes.

End Sample.

(** Model names, and a lowering of non-ASCII characters that knows the
    Kelvin sign U+212A (bytes E2 84 AA), which [str.lower] turns into [k];
    it leaves every other non-ASCII byte in place. *)
Module SampleNames.

Definition byte (n : nat) : string := String (ascii_of_nat n) EmptyString.

Definition kelvin_sign : string := byte 226 +:+ byte 132 +:+ byte 170.

Fixpoint str_rev (s : string) : string :=
  match s with
  | EmptyString => EmptyString
  | String c s' => str_rev s' +:+ String c EmptyString
  end.

Definition str_suffix (p s : string) : bool := str_prefix (str_rev p) (str_rev s).

Definition unicode_lower (before : string) (c : ascii) (after : string) : string :=
  if bool_decide (c = ascii_of_nat 226) && str_prefix (byte 132 +:+ byte 170) after
  then "k"
  else if bool_decide (c = ascii_of_nat 132) && str_suffix (byte 226) before
          && str_prefix (byte 170) after
  then ""
  else if bool_decide (c = ascii_of_nat 170) && str_suffix (byte 226 +:+ byte 132) before
  then ""
  else String c EmptyString.

(** [mas] + KELVIN SIGN + [2former] *)
Definition kelvin_name : string := "mas" +:+ kelvin_sign +:+ "2former".

(** A processor loader that always succeeds, and one that never does. *)
Definition loads (name : string) (size : Z) : result () := Ok ().
Definition offline (name : string) (size : Z) : result () :=
  Raise (ValueError "offline").

End SampleNames.

(** ** Further readings of the formatters *)

(** The first of the four keys [format_predictions] subscripts that is not
    in [outputs]. *)
Definition first_missing_key (outputs : dict) : option string :=
  List.find (λ key, bool_decide (outputs !! key = None)) prediction_fields.

(** The keys [format_targets] looks at. *)
Definition target_fields : list string :=
  ["panoptic_masks"; "labels"; "bounding_boxes"; "class_labels"].

(** An optional target field that is missing, [None], or a tensor with a
    leading axis. *)
Definition optional_tensor (field : option value) : Prop :=
  field = None ∨ field = Some VNone ∨
  ∃ x n, field = Some (VTensor x) ∧ Tensor.leading x = Some n.

(** An optional target field that is missing, [None], or a tensor with at
    least [N] rows. *)
Definition optional_rows (N : nat) (field : option value) : Prop :=
  field = None ∨ field = Some VNone ∨
  ∃ x n, field = Some (VTensor x) ∧ Tensor.leading x = Some n ∧ N ≤ n.

(** The [loss] entry [adapt_output] is written to produce: the attribute
    unless it is missing or [None], then the key of a mapping, then
    [None]. *)
Definition loss_attribute (outputs : raw_output) : option value :=
  match attrs outputs !! "loss" with
  | Some VNone | None => None
  | Some v => Some v
  end.

Module Sample2.

(** An empty batch of logits, and fields that are not tensors. *)
Definition no_logits : Tensor.t := Tensor.mk [0; 1; 3] [].

Definition empty_batch : dict :=
  <["logits" := VTensor no_logits]>
  (<["pred_boxes" := VNone]>
  (<["pred_masks" := VDict ∅]>
  (<["pred_panoptic_seg" := VTensor Sample.pred_panoptic_seg]> ∅))).

(** No [pred_masks] and no [pred_panoptic_seg]. *)
Definition two_fields : dict :=
  <["logits" := VTensor Sample.logits]>
  (<["pred_boxes" := VTensor Sample.pred_boxes]> ∅).

(** [panoptic_masks] set to [None] beside usable [labels]. *)
Definition none_masks : dict :=
  <["panoptic_masks" := VNone]>
  (<["labels" := VTensor Sample.pred_panoptic_seg]> ∅).

(** Masks for two samples, boxes for one. *)
Definition short_boxes : dict :=
  <["panoptic_masks" := VTensor Sample.pred_panoptic_seg]>
  (<["bounding_boxes" := VTensor Sample.pred_boxes1]> ∅).

(** Masks for one sample, boxes and class labels for two. *)
Definition masks1 : Tensor.t := Tensor.mk [1; 2] [3; 3]%Z.
Definition class_labels : Tensor.t := Tensor.mk [2; 1] [1; 0]%Z.

Definition long_boxes : dict :=
  <["labels" := VTensor masks1]>
  (<["bounding_boxes" := VTensor Sample.pred_boxes]>
  (<["class_labels" := VTensor class_labels]> ∅)).

(** A full annotation: masks, boxes and class labels for two samples. *)
Definition annotation : dict :=
  <["panoptic_masks" := VTensor Sample.pred_panoptic_seg]>
  (<["bounding_boxes" := VTensor Sample.pred_boxes]>
  (<["class_labels" := VTensor class_labels]> ∅)).

(** A model output with a loss attribute and a different ['loss'] item. *)
Definition attr_loss : value := VTensor (Tensor.mk [] [7%Z]).
Definition key_loss : value := VTensor (Tensor.mk [] [9%Z]).

Definition both_losses : raw_output :=
  mk_raw (<["loss" := attr_loss]> Sample.fields) (Some Sample.fields_with_loss).

Definition key_loss_only : raw_output :=
  mk_raw (<["loss" := VNone]> Sample.fields) (Some Sample.fields_with_loss).

End Sample2.

(** An optional target field that is a tensor with fewer than [N] rows. *)
Definition short_rows (N : nat) (field : option value) : Prop :=
  ∃ x n, field = Some (VTensor x) ∧ Tensor.leading x = Some n ∧ n < N.

(** The six keys of an adapted output. *)
Definition adapted_keys : gset string :=
  {["loss"; "logits"; "pred_boxes"; "pred_masks"; "pred_panoptic_seg"; "loss_dict"]}.

(** ** Dynamically typed values

    Source: [src/tasks/semantic_segmentation/model.py].  The configuration
    of the Lightning module and the checkpoint dictionaries hold Python
    values of any type; floats are only stored and handed on, so their
    type is left open. *)

Section PyValues.

Context {float : Type}.

Inductive pyval :=
  | PNone
  | PBool (b : bool)
  | PInt (n : Z)
  | PFloat (x : float)
  | PStr (s : string)
  | PList (l : list pyval)
  | PDict (d : gmap string pyval).

(** [v[key]] for a string key: only a dictionary can be subscripted so. *)
Definition py_subscript (v : pyval) (key : string) : result pyval :=
  match v with
  | PDict d =>
      match d !! key with
      | Some x => Ok x
      | None => Raise (KeyError (KStr key))
      end
  | _ => Raise TypeError
  end.

End PyValues.

Arguments pyval : clear implicits.

(** ** SemanticSegmentationModel: configuration and checkpoint hooks *)

Module SemanticModel.

Section Config.

Context {float : Type}.

(** [SemanticSegmentationModelConfig].  The five fields that
    [on_load_checkpoint] assigns from a checkpoint hold whatever the
    checkpoint held. *)
Record Config := mk_config {
  model_name : string;
  num_classes : Z;
  pretrained : bool;
  learning_rate : pyval float;
  weight_decay : pyval float;
  scheduler : pyval float;
  scheduler_params : pyval float;
  epochs : Z;
  class_names : pyval float;
  model_kwargs : pyval float;
  image_size : Z;
  num_workers : Z
}.

Definition sync_dist_flag (config : Config) : bool := (1 <? num_workers config)%Z.

(** [self.config.class_names = v] and the like. *)
Definition set_class_names (v : pyval float) (c : Config) : Config :=
  mk_config (model_name c) (num_classes c) (pretrained c) (learning_rate c)
    (weight_decay c) (scheduler c) (scheduler_params c) (epochs c) v
    (model_kwargs c) (image_size c) (num_workers c).

Definition set_learning_rate (v : pyval float) (c : Config) : Config :=
  mk_config (model_name c) (num_classes c) (pretrained c) v
    (weight_decay c) (scheduler c) (scheduler_params c) (epochs c) (class_names c)
    (model_kwargs c) (image_size c) (num_workers c).

Definition set_weight_decay (v : pyval float) (c : Config) : Config :=
  mk_config (model_name c) (num_classes c) (pretrained c) (learning_rate c)
    v (scheduler c) (scheduler_params c) (epochs c) (class_names c)
    (model_kwargs c) (image_size c) (num_workers c).

Definition set_scheduler (v : pyval float) (c : Config) : Config :=
  mk_config (model_name c) (num_classes c) (pretrained c) (learning_rate c)
    (weight_decay c) v (scheduler_params c) (epochs c) (class_names c)
    (model_kwargs c) (image_size c) (num_workers c).

Definition set_scheduler_params (v : pyval float) (c : Config) : Config :=
  mk_config (model_name c) (num_classes c) (pretrained c) (learning_rate c)
    (weight_decay c) (scheduler c) v (epochs c) (class_names c)
    (model_kwargs c) (image_size c) (num_workers c).

(** [on_save_checkpoint]: the checkpoint dictionary after the two
    assignments. *)
Definition on_save_checkpoint (config : Config) (checkpoint : gmap string (pyval float))
  : gmap string (pyval float) :=
  let checkpoint := <["class_names" := class_names config]> checkpoint in
  <["optimizer_params" :=
      PDict (<["learning_rate" := learning_rate config]>
            (<["weight_decay" := weight_decay config]>
            (<["scheduler" := scheduler config]>
            (<["scheduler_params" := scheduler_params config]> ∅))))]> checkpoint.

(** [on_load_checkpoint]: the configuration as the hook leaves it, and
    whether the hook returned or raised.  Assignments made before an
    exception stay. *)
Definition on_load_checkpoint (config : Config) (checkpoint : gmap string (pyval float))
  : Config * result () :=
  let config :=
    match checkpoint !! "class_names" with
    | Some v => set_class_names v config
    | None => config
    end in
  match checkpoint !! "optimizer_params" with
  | None => (config, Ok ())
  | Some params =>
      match py_subscript params "learning_rate" with
      | Raise e => (config, Raise e)
      | Ok v =>
          let config := set_learning_rate v config in
          match py_subscript params "weight_decay" with
          | Raise e => (config, Raise e)
          | Ok v =>
              let config := set_weight_decay v config in
              match py_subscript params "scheduler" with
              | Raise e => (config, Raise e)
              | Ok v =>
                  let config := set_scheduler v config in
                  match py_subscript params "scheduler_params" with
                  | Raise e => (config, Raise e)
                  | Ok v => (set_scheduler_params v config, Ok ())
                  end
              end
          end
      end
  end.

(** The fields no hook assigns. *)
Definition architecture (c : Config) : string * Z * bool * Z * pyval float * Z * Z :=
  (model_name c, num_classes c, pretrained c, epochs c, model_kwargs c,
   image_size c, num_workers c).

(** *** Parameter groups of [configure_optimizers] *)

(** Python's [*] and the float literal [0.1]. *)
Variable py_mul : pyval float → pyval float → result (pyval float).
Variable float_0_1 : float.

Context {parameter : Type}.

Record param_group := mk_group {
  group_params : list parameter;
  group_lr : pyval float;
  group_weight_decay : pyval float
}.

(** The test of the loop: ["backbone" in name]. *)
Definition in_backbone (p : string * parameter) : bool :=
  str_contains "backbone" p.1.

(** The loop over [self.named_parameters()], started from the two lists. *)
Fixpoint split_parameters (named_parameters : list (string * parameter))
    (backbone_params other_params : list parameter) : list parameter * list parameter :=
  match named_parameters with
  | [] => (backbone_params, other_params)
  | (name, param) :: rest =>
      if str_contains "backbone" name
      then split_parameters rest (backbone_params ++ [param]) other_params
      else split_parameters rest backbone_params (other_params ++ [param])
  end.

(** The [param_groups] list built when the model has a backbone. *)
Definition backbone_param_groups (config : Config)
    (named_parameters : list (string * parameter)) : result (list param_group) :=
  let '(backbone_params, other_params) := split_parameters named_parameters [] [] in
  backbone_lr ← py_mul (learning_rate config) (PFloat float_0_1);
  Ok [ mk_group backbone_params backbone_lr (weight_decay config);
       mk_group other_params (learning_rate config) (weight_decay config) ].

End Config.

Arguments Config : clear implicits.
Arguments param_group : clear implicits.

(** The batch size handed to [self.log] in the three step methods: the
    guarded read of [batch["pixel_values"].shape[0]]. *)
Definition logged_batch_size (batch : dict) : result (option nat) :=
  let attempt : result (option nat) :=
    match batch !! "pixel_values" with
    | Some _ => v ← subscript batch "pixel_values"; n ← shape0 v; Ok (Some n)
    | None => Ok None
    end in
  match attempt with
  | Ok batch_size => Ok batch_size
  | Raise (KeyError _) | Raise (AttributeError _) | Raise IndexError => Ok None
  | Raise e => Raise e
  end.

End SemanticModel.

(** ** UnifiedTrainer: configuration from a dictionary

    Source: [src/training/trainer.py]. *)

Module Trainer.

Section Config.

Context {float filesystem : Type}.

(** [x == 0.0] on floats, and [os.makedirs(path, exist_ok=True)] acting on
    the file system. *)
Variable float_is_zero : float → bool.
Variable makedirs : pyval float → filesystem → filesystem * result ().

(** Truth value of a Python value, as [if v] and [... if v else ...] take it. *)
Definition py_truthy (v : pyval float) : bool :=
  match v with
  | PNone => false
  | PBool b => b
  | PInt n => negb (n =? 0)%Z
  | PFloat x => negb (float_is_zero x)
  | PStr s => negb (bool_decide (s = ""))
  | PList l => match l with [] => false | _ :: _ => true end
  | PDict d => negb (size d =? 0)
  end.

(** [UnifiedTrainerConfig]: a dataclass, its fields unchecked. *)
Record UnifiedTrainerConfig := mk_config {
  task : pyval float;
  model_name : pyval float;
  max_epochs : pyval float;
  log_every_n_steps : pyval float;
  monitor_metric : pyval float;
  monitor_mode : pyval float;
  early_stopping_patience : pyval float;
  checkpoint_dir : pyval float;
  save_top_k : pyval float;
  distributed : pyval float;
  num_workers : pyval float;
  use_gpu : pyval float;
  resources_per_worker : pyval float;
  experiment_name : pyval float;
  run_name : pyval float
}.

Definition set_resources_per_worker (v : pyval float) (c : UnifiedTrainerConfig)
  : UnifiedTrainerConfig :=
  mk_config (task c) (model_name c) (max_epochs c) (log_every_n_steps c)
    (monitor_metric c) (monitor_mode c) (early_stopping_patience c)
    (checkpoint_dir c) (save_top_k c) (distributed c) (num_workers c) (use_gpu c)
    v (experiment_name c) (run_name c).

(** [config[section][key]] *)
Definition section_get (config : gmap string (pyval float)) (section key : string)
  : result (pyval float) :=
  s ← py_subscript (PDict config) section; py_subscript s key.

(** The dictionary literal of [UnifiedTrainer.__init__], entry by entry,
    handed to the dataclass constructor; the two MLflow fields take their
    default [None]. *)
Definition fields_from_dict (config : gmap string (pyval float))
  : result UnifiedTrainerConfig :=
  task ← section_get config "model" "task_type";
  model_name ← section_get config "model" "model_name";
  max_epochs ← section_get config "training" "max_epochs";
  log_every_n_steps ← section_get config "training" "log_every_n_steps";
  monitor_metric ← section_get config "training" "monitor_metric";
  monitor_mode ← section_get config "training" "monitor_mode";
  early_stopping_patience ← section_get config "training" "early_stopping_patience";
  checkpoint_dir ← section_get config "training" "checkpoint_dir";
  save_top_k ← section_get config "training" "save_top_k";
  distributed ← section_get config "training" "distributed";
  num_workers ← section_get config "data" "num_workers";
  use_gpu ← section_get config "training" "use_gpu";
  resources_per_worker ← section_get config "training" "resources_per_worker";
  Ok (mk_config task model_name max_epochs log_every_n_steps monitor_metric
        monitor_mode early_stopping_patience checkpoint_dir save_top_k
        distributed num_workers use_gpu resources_per_worker PNone PNone).

(** The resources [__post_init__] fills in. *)
Definition default_resources (use_gpu : pyval float) : pyval float :=
  PDict (<["CPU" := PInt 1]>
        (<["GPU" := PInt (if py_truthy use_gpu then 1 else 0)]> ∅)).

(** [UnifiedTrainerConfig.__post_init__] *)
Definition post_init (c : UnifiedTrainerConfig) (fs : filesystem)
  : filesystem * result UnifiedTrainerConfig :=
  let '(fs, made) := makedirs (checkpoint_dir c) fs in
  match made with
  | Raise e => (fs, Raise e)
  | Ok _ =>
      (fs, Ok match resources_per_worker c with
              | PNone => set_resources_per_worker (default_resources (use_gpu c)) c
              | _ => c
              end)
  end.

(** The configuration [UnifiedTrainer.__init__] ends up with for a
    dictionary argument. *)
Definition config_from_dict (config : gmap string (pyval float)) (fs : filesystem)
  : filesystem * result UnifiedTrainerConfig :=
  match fields_from_dict config with
  | Raise e => (fs, Raise e)
  | Ok c => post_init c fs
  end.

(** The arguments [train] and [tune] pass to [setup_ray_cluster]: worker
    nodes, CPUs per node, GPUs per node. *)
Definition ray_cluster_arguments (c : UnifiedTrainerConfig)
  : result (pyval float * pyval float * pyval float) :=
  let num_worker_nodes := num_workers c in
  num_cpus_per_node ← py_subscript (resources_per_worker c) "CPU";
  num_gpus_per_node ←
    (if py_truthy (use_gpu c) then py_subscript (resources_per_worker c) "GPU"
     else Ok (PInt 0));
  Ok (num_worker_nodes, num_cpus_per_node, num_gpus_per_node).

End Config.

Arguments UnifiedTrainerConfig : clear implicits.

End Trainer.

(** ** Sample configurations and checkpoints *)

Module Sample3.

(** Floats written as their literals; the product is kept symbolic. *)
Definition mul (a b : pyval string) : result (pyval string) :=
  match a, b with
  | PFloat x, PFloat y => Ok (PFloat (x +:+ "*" +:+ y))
  | _, _ => Raise TypeError
  end.

Definition config : SemanticModel.Config string :=
  SemanticModel.mk_config "nvidia/segformer-b0" 19 true (PFloat "1e-4") (PFloat "0.01")
    (PStr "cosine") PNone 10 (PList [PStr "road"; PStr "car"]) PNone 512 1.

(** A checkpoint whose optimizer entry has only the learning rate. *)
Definition half_checkpoint : gmap string (pyval string) :=
  <["optimizer_params" := PDict (<["learning_rate" := PFloat "3e-5"]> ∅)]> ∅.

Definition named_parameters : list (string * nat) :=
  [("model.backbone.stem.weight", 0); ("model.head.weight", 1);
   ("model.Backbone.bias", 2); ("model.backbone.stem.bias", 3)].

(** A trainer configuration dictionary that leaves the resources to the
    default. *)
Definition trainer_dict (resources : pyval string) : gmap string (pyval string) :=
  <["model" := PDict (<["task_type" := PStr "panoptic"]>
                     (<["model_name" := PStr "mask2former"]> ∅))]>
  (<["data" := PDict (<["num_workers" := PInt 4]> ∅)]>
  (<["training" :=
       PDict (<["max_epochs" := PInt 10]>
             (<["log_every_n_steps" := PInt 50]>
             (<["monitor_metric" := PStr "val_loss"]>
             (<["monitor_mode" := PStr "min"]>
             (<["early_stopping_patience" := PInt 3]>
             (<["checkpoint_dir" := PStr "/tmp/ckpt"]>
             (<["save_top_k" := PInt 1]>
             (<["distributed" := PBool true]>
             (<["use_gpu" := PBool true]>
             (<["resources_per_worker" := resources]> ∅))))))))))]> ∅)).

(** The same without the ['resources_per_worker'] entry. *)
Definition trainer_dict_no_resources : gmap string (pyval string) :=
  <["training" :=
      PDict (<["max_epochs" := PInt 10]>
            (<["log_every_n_steps" := PInt 50]>
            (<["monitor_metric" := PStr "val_loss"]>
            (<["monitor_mode" := PStr "min"]>
            (<["early_stopping_patience" := PInt 3]>
            (<["checkpoint_dir" := PStr "/tmp/ckpt"]>
            (<["save_top_k" := PInt 1]>
            (<["distributed" := PBool true]>
            (<["use_gpu" := PBool true]> ∅)))))))))]> (trainer_dict PNone).

(** A file system that records the directories asked for. *)
Definition makedirs (path : pyval string) (fs : list (pyval string))
  : list (pyval string) * result () :=
  (fs ++ [path], Ok ()).

Definition float_is_zero (x : string) : bool := bool_decide (x = "0.0").

(** Resources with CPUs only, on a configuration that does not use GPUs. *)
Definition cpu_only : Trainer.UnifiedTrainerConfig string :=
  Trainer.mk_config (PStr "panoptic") (PStr "mask2former") (PInt 10) (PInt 50)
    (PStr "val_loss") (PStr "min") (PInt 3) (PStr "/tmp/ckpt") (PInt 1)
    (PBool true) (PInt 4) (PBool false) (PDict (<["CPU" := PInt 8]> ∅)) PNone PNone.

End Sample3.

(** ** UnifiedTrainer: the Lightning trainer and [test]

    The trainer object holds an optional model, data module and Lightning
    trainer.  The callbacks, the two [pl.Trainer(...)] constructions,
    [prepare_trainer] and the Lightning trainer's own [test] belong to
    Lightning and Ray; they are parameters, and each may raise. *)

Module UnifiedTrainer.

Section Test.

Context {float model data_module callbacks lightning_trainer logger results : Type}.

Abbreviation config := (Trainer.UnifiedTrainerConfig float).

Record t := mk {
  self_config : config;
  self_model : option model;
  self_data_module : option data_module;
  self_trainer : option lightning_trainer;
  self_logger : option logger
}.

Variable float_is_zero : float → bool.
Variable init_callbacks : config → result callbacks.
Variable distributed_trainer :
  config → callbacks → option logger → result lightning_trainer.
Variable prepare_trainer : lightning_trainer → result lightning_trainer.
Variable local_trainer :
  config → callbacks → option logger → result lightning_trainer.
Variable run_test : lightning_trainer → model → data_module → result results.

Definition set_model (m : model) (self : t) : t :=
  mk (self_config self) (Some m) (self_data_module self) (self_trainer self)
    (self_logger self).

Definition set_data_module (d : data_module) (self : t) : t :=
  mk (self_config self) (self_model self) (Some d) (self_trainer self)
    (self_logger self).

Definition set_trainer (tr : lightning_trainer) (self : t) : t :=
  mk (self_config self) (self_model self) (self_data_module self) (Some tr)
    (self_logger self).

(** [_init_trainer]: in distributed mode [self.trainer] is assigned twice,
    before and after [prepare_trainer]. *)
Definition _init_trainer (self : t) : t * result () :=
  match init_callbacks (self_config self) with
  | Raise e => (self, Raise e)
  | Ok cbs =>
      if Trainer.py_truthy float_is_zero (Trainer.distributed (self_config self))
      then
        match distributed_trainer (self_config self) cbs (self_logger self) with
        | Raise e => (self, Raise e)
        | Ok tr =>
            let self := set_trainer tr self in
            match prepare_trainer tr with
            | Raise e => (self, Raise e)
            | Ok tr => (set_trainer tr self, Ok ())
            end
        end
      else
        match local_trainer (self_config self) cbs (self_logger self) with
        | Raise e => (self, Raise e)
        | Ok tr => (set_trainer tr self, Ok ())
        end
  end.

Definition missing_message : string :=
  "Model and data module must be provided before testing".

(** [self.trainer.test(self.model, datamodule=self.data_module)] *)
Definition call_trainer_test (self : t) (m : model) (d : data_module)
  : t * result results :=
  match self_trainer self with
  | Some tr => (self, run_test tr m d)
  | None => (self, Raise (AttributeError "test"))
  end.

(** [test(model=None, data_module=None)]: the object afterwards and the
    outcome of the call. *)
Definition test (self : t) (model_arg : option model)
    (data_module_arg : option data_module) : t * result results :=
  let self :=
    match model_arg with Some m => set_model m self | None => self end in
  let self :=
    match data_module_arg with Some d => set_data_module d self | None => self end in
  match self_model self, self_data_module self with
  | Some m, Some d =>
      match self_trainer self with
      | Some _ => call_trainer_test self m d
      | None =>
          let '(self, initialised) := _init_trainer self in
          match initialised with
          | Raise e => (self, Raise e)
          | Ok _ => call_trainer_test self m d
          end
      end
  | _, _ => (self, Raise (ValueError missing_message))
  end.

End Test.

Arguments t : clear implicits.

End UnifiedTrainer.

(** ** What the records hold *)

(** The data of the tensor a record holds under [key]. *)
Definition record_data (key : string) (record : dict) : list Z :=
  match record !! key with
  | Some (VTensor x) => Tensor.data x
  | _ => []
  end.

(** The shape of the tensor a record holds under [key]. *)
Definition record_shape (key : string) (record : dict) : option (list nat) :=
  match record !! key with
  | Some (VTensor x) => Some (Tensor.shape x)
  | _ => None
  end.

(** ** Sample trainer objects *)

Module Sample4.

Definition local_config : Trainer.UnifiedTrainerConfig string :=
  Trainer.mk_config (PStr "panoptic") (PStr "mask2former") (PInt 10) (PInt 50)
    (PStr "val_loss") (PStr "min") (PInt 3) (PStr "/tmp/ckpt") (PInt 1)
    (PBool false) (PInt 1) (PBool false) (PDict (<["CPU" := PInt 8]> ∅)) PNone PNone.

(** Models and data modules are numbered, Lightning trainers named. *)
Definition fresh (config : Trainer.UnifiedTrainerConfig string)
  : UnifiedTrainer.t string nat nat string unit :=
  UnifiedTrainer.mk config None None None None.

Definition loaded (config : Trainer.UnifiedTrainerConfig string)
  : UnifiedTrainer.t string nat nat string unit :=
  UnifiedTrainer.mk config (Some 7) (Some 8) None None.

Definition init_callbacks (c : Trainer.UnifiedTrainerConfig string)
  : result (list string) := Ok ["checkpoint"; "early_stopping"].

Definition distributed_trainer (c : Trainer.UnifiedTrainerConfig string)
    (cbs : list string) (lg : option unit) : result string := Ok "unprepared".

Definition local_trainer (c : Trainer.UnifiedTrainerConfig string)
    (cbs : list string) (lg : option unit) : result string := Ok "local".

Definition prepare_trainer (tr : string) : result string :=
  Raise (ValueError "no Ray session").

Definition failing_callbacks (c : Trainer.UnifiedTrainerConfig string)
  : result (list string) := Raise (ValueError "no logging utilities").

Definition run_test (tr : string) (m d : nat) : result (string * nat) :=
  Ok (tr, m + d).

End Sample4.

(** ** The loop *)

Lemma for_append_ok {A} (body : nat → result A) (f : nat → A) idx acc :
  (∀ i, i ∈ idx → body i = Ok (f i)) →
  for_append body idx acc = Ok (acc ++ map f idx).
Proof.
  revert acc. induction idx as [|j idx IH]; intros acc Hbody; simpl.
  - by rewrite app_nil_r.
  - rewrite (Hbody j) by set_solver. simpl.
    rewrite IH by (intros; apply Hbody; set_solver).
    by rewrite <- app_assoc.
Qed.

Lemma for_range_ok {A} (body : nat → result A) (f : nat → A) n :
  (∀ i, i < n → body i = Ok (f i)) →
  for_range n body = Ok (map f (seq 0 n)).
Proof.
  intros Hbody. unfold for_range.
  rewrite (for_append_ok body f); [done|].
  intros i Hi. apply Hbody. apply elem_of_seq in Hi. lia.
Qed.

Lemma for_append_raise {A} (body : nat → result A) e idx acc :
  (∀ i, i ∈ idx → body i = Raise e ∨ ∃ r, body i = Ok r) →
  (∃ j, j ∈ idx ∧ body j = Raise e) →
  for_append body idx acc = Raise e.
Proof.
  revert acc. induction idx as [|k idx IH]; intros acc Hall [j [Hj Hraise]].
  - by apply elem_of_nil in Hj.
  - simpl. assert (Hk : k ∈ k :: idx) by apply list_elem_of_here.
    apply Hall in Hk as [Hk|[r Hk]]; rewrite Hk; simpl; [done|].
    apply IH.
    + intros i Hi. apply Hall. by apply list_elem_of_further.
    + apply elem_of_cons in Hj as [Heq|Hin]; [congruence|eauto].
Qed.

Lemma lookup_map_seq0 {A} (f : nat → A) n i :
  i < n → map f (seq 0 n) !! i = Some (f i).
Proof.
  intros Hi. change (map f (seq 0 n)) with (f <$> seq 0 n).
  rewrite list_lookup_fmap, lookup_seq_lt by done. done.
Qed.

(** ** Indexing tensors *)

Lemma tensor_getitem_lt x n i :
  Tensor.leading x = Some n → i < n →
  Tensor.getitem x i = Ok (Tensor.slice x i).
Proof.
  unfold Tensor.leading, Tensor.getitem. destruct (Tensor.shape x); simpl; [done|].
  intros [= ->] Hi. by rewrite decide_True.
Qed.

Lemma tensor_getitem_ge x n i :
  Tensor.leading x = Some n → n ≤ i →
  Tensor.getitem x i = Raise IndexError.
Proof.
  unfold Tensor.leading, Tensor.getitem. destruct (Tensor.shape x); simpl; [done|].
  intros [= ->] Hi. rewrite decide_False; [done|lia].
Qed.

Lemma tensor_shape0_leading x n :
  Tensor.leading x = Some n → Tensor.shape0 x = Ok n.
Proof.
  unfold Tensor.leading, Tensor.shape0. destruct (Tensor.shape x); simpl; congruence.
Qed.

Lemma tensor_argmax_slice x i :
  Tensor.class_axis_nonempty x →
  Tensor.argmax_last (Tensor.slice x i) = Ok (Tensor.argmax_values (Tensor.slice x i)).
Proof.
  unfold Tensor.class_axis_nonempty, Tensor.argmax_last. simpl.
  destruct (last (tail (Tensor.shape x))) as [[|k]|]; done.
Qed.

(** [argmax_row] points at a largest entry of a non-empty row. *)
Lemma tensor_argmax_from_max (row pre : list Z) (best_i : nat) (best : Z) :
  pre !! best_i = Some best →
  (∀ w, w ∈ pre → (w ≤ best)%Z) →
  ∃ v, (pre ++ row) !! Tensor.argmax_from best_i best (length pre) row = Some v ∧
       ∀ w, w ∈ pre ++ row → (w ≤ v)%Z.
Proof.
  revert pre best_i best. induction row as [|x row IH]; intros pre best_i best Hbest Hmax.
  - simpl. rewrite app_nil_r. eauto.
  - simpl. replace (pre ++ x :: row) with ((pre ++ [x]) ++ row)
      by (by rewrite <- app_assoc).
    replace (S (length pre)) with (length (pre ++ [x]))
      by (rewrite length_app; simpl; lia).
    destruct (best <? x)%Z eqn:E.
    + apply Z.ltb_lt in E. apply IH.
      * by rewrite list_lookup_middle.
      * intros w [Hw|Hw%list_elem_of_singleton]%elem_of_app; [|lia].
        apply Hmax in Hw. lia.
    + apply Z.ltb_ge in E. apply IH.
      * by apply lookup_app_l_Some.
      * intros w [Hw|Hw%list_elem_of_singleton]%elem_of_app; [by apply Hmax|lia].
Qed.

Lemma tensor_argmax_row_max (row : list Z) :
  row ≠ [] →
  ∃ v, row !! Tensor.argmax_row row = Some v ∧ ∀ w, w ∈ row → (w ≤ v)%Z.
Proof.
  destruct row as [|x row]; [done|]. intros _. unfold Tensor.argmax_row.
  apply (tensor_argmax_from_max row [x] 0 x); [done|].
  by intros w ->%list_elem_of_singleton.
Qed.

(** Slicing a well-formed tensor inside its leading axis gives a well-formed
    tensor of the remaining axes. *)
Lemma tensor_slice_wf x n i :
  Tensor.wf x → Tensor.leading x = Some n → i < n →
  Tensor.wf (Tensor.slice x i) ∧
  Tensor.shape (Tensor.slice x i) = tail (Tensor.shape x).
Proof.
  unfold Tensor.wf, Tensor.leading, Tensor.slice.
  destruct x as [sh dat]; simpl. destruct sh as [|m rest]; simpl; [done|].
  intros Hlen [= ->] Hi. split; [|done].
  rewrite length_take, length_drop, Hlen. nia.
Qed.

(** ** Per-sample formatting *)

Ltac use_lookup H := unfold subscript; rewrite H; simpl.

(** A prediction batch whose fields have leading dimensions at least that
    of [logits] is cut into one record per row of [logits]. *)
Lemma format_predictions_rows (outputs : dict) logits pred_boxes pred_masks pred_panoptic_seg
    n nb nm ns :
  outputs !! "logits" = Some (VTensor logits) →
  outputs !! "pred_boxes" = Some (VTensor pred_boxes) →
  outputs !! "pred_masks" = Some (VTensor pred_masks) →
  outputs !! "pred_panoptic_seg" = Some (VTensor pred_panoptic_seg) →
  Tensor.leading logits = Some n →
  Tensor.leading pred_boxes = Some nb →
  Tensor.leading pred_masks = Some nm →
  Tensor.leading pred_panoptic_seg = Some ns →
  n ≤ nb → n ≤ nm → n ≤ ns →
  Tensor.class_axis_nonempty logits →
  format_predictions outputs =
    Ok (map (prediction_record logits pred_boxes pred_masks pred_panoptic_seg) (seq 0 n)).
Proof.
  intros Hl Hb Hm Hs Ln Lb Lm Ls Hnb Hnm Hns Hcls. unfold format_predictions.
  use_lookup Hl. use_lookup Hb. use_lookup Hm. use_lookup Hs.
  rewrite (tensor_shape0_leading _ _ Ln). simpl.
  apply for_range_ok. intros i Hi.
  rewrite (tensor_getitem_lt _ _ _ Ls), (tensor_getitem_lt _ _ _ Lm),
    (tensor_getitem_lt _ _ _ Lb), (tensor_getitem_lt _ _ _ Ln) by lia.
  simpl. by rewrite tensor_argmax_slice.
Qed.

Lemma has_masks_select (targets : dict) masks :
  has_masks targets masks →
  match targets !! "panoptic_masks" with
  | Some v => Ok v
  | None =>
      match targets !! "labels" with
      | Some v => Ok v
      | None => Raise (ValueError missing_masks_message)
      end
  end = Ok masks.
Proof. by intros [->|[-> ->]]. Qed.

Lemma optional_batch_getitem N field i :
  optional_batch N field → i < N →
  (if is_none (default VNone field) then Ok None
   else Some <$> getitem (default VNone field) i) = Ok (slice_field field i).
Proof.
  intros [->|[->|[x [-> Lx]]]] Hi; simpl; [done..|].
  by rewrite (tensor_getitem_lt _ _ _ Lx).
Qed.

(** A target batch is cut into one record per row of the mask tensor. *)
Lemma format_targets_rows (targets : dict) masks N :
  has_masks targets (VTensor masks) →
  Tensor.leading masks = Some N →
  optional_batch N (targets !! "bounding_boxes") →
  optional_batch N (targets !! "class_labels") →
  format_targets targets =
    Ok (map (target_record masks (targets !! "bounding_boxes") (targets !! "class_labels"))
            (seq 0 N)).
Proof.
  intros Hm Lm Hb Hc. unfold format_targets.
  rewrite (has_masks_select _ _ Hm). simpl.
  rewrite (tensor_shape0_leading _ _ Lm). simpl.
  apply for_range_ok. intros i Hi.
  rewrite (tensor_getitem_lt _ _ _ Lm) by done. simpl.
  pose proof (optional_batch_getitem _ _ i Hb Hi) as Eb.
  pose proof (optional_batch_getitem _ _ i Hc Hi) as Ec.
  unfold dict_get, target_record.
  destruct (is_none (default VNone (targets !! "bounding_boxes"))).
  - injection Eb as <-. simpl.
    destruct (is_none (default VNone (targets !! "class_labels"))).
    + by injection Ec as <-.
    + destruct (getitem _ i); simpl in Ec; [|done]. by injection Ec as <-.
  - destruct (getitem (default VNone (targets !! "bounding_boxes")) i);
      simpl in Eb; [|done].
    injection Eb as <-. simpl.
    destruct (is_none (default VNone (targets !! "class_labels"))).
    + by injection Ec as <-.
    + destruct (getitem _ i); simpl in Ec; [|done]. by injection Ec as <-.
Qed.

(** C1.  For a batch of size [N >= 1], [format_predictions] and
    [format_targets] each return exactly [N] records, and record [i] holds
    every batched field sliced at [i]: the panoptic, instance and box slices
    and the argmax of the logits slice for predictions; the mask slice and
    the slices of the optional fields that are present for targets. *)
Theorem format_index_correspondence (N : nat) :
  1 ≤ N →
  (∀ (outputs : dict) logits pred_boxes pred_masks pred_panoptic_seg,
     outputs !! "logits" = Some (VTensor logits) →
     outputs !! "pred_boxes" = Some (VTensor pred_boxes) →
     outputs !! "pred_masks" = Some (VTensor pred_masks) →
     outputs !! "pred_panoptic_seg" = Some (VTensor pred_panoptic_seg) →
     Tensor.leading logits = Some N →
     Tensor.leading pred_boxes = Some N →
     Tensor.leading pred_masks = Some N →
     Tensor.leading pred_panoptic_seg = Some N →
     Tensor.class_axis_nonempty logits →
     ∃ records,
       format_predictions outputs = Ok records ∧
       length records = N ∧
       ∀ i, i < N →
         records !! i =
           Some (prediction_record logits pred_boxes pred_masks pred_panoptic_seg i))
  ∧
  (∀ (targets : dict) masks,
     has_masks targets (VTensor masks) →
     Tensor.leading masks = Some N →
     optional_batch N (targets !! "bounding_boxes") →
     optional_batch N (targets !! "class_labels") →
     ∃ records,
       format_targets targets = Ok records ∧
       length records = N ∧
       ∀ i, i < N →
         records !! i =
           Some (target_record masks (targets !! "bounding_boxes")
                   (targets !! "class_labels") i)).
Proof.
  intros _. split.
  - intros outputs logits pb pm ps Hl Hb Hm Hs Ln Lb Lm Ls Hcls.
    eexists. split; [|split].
    + by eapply format_predictions_rows.
    + by rewrite length_map, length_seq.
    + intros i Hi. by apply lookup_map_seq0.
  - intros targets masks Hm Lm Hb Hc.
    eexists. split; [|split].
    + by eapply format_targets_rows.
    + by rewrite length_map, length_seq.
    + intros i Hi. by apply lookup_map_seq0.
Qed.

Lemma tensor_argmax_last_cases x :
  Tensor.argmax_last x = Raise IndexError ∨ ∃ r, Tensor.argmax_last x = Ok r.
Proof.
  unfold Tensor.argmax_last. destruct (last (Tensor.shape x)) as [[|k]|]; eauto.
Qed.

Lemma tensor_getitem_cases x n i :
  Tensor.leading x = Some n →
  (i < n ∧ Tensor.getitem x i = Ok (Tensor.slice x i)) ∨
  (n ≤ i ∧ Tensor.getitem x i = Raise IndexError).
Proof.
  intros Lx. destruct (decide (i < n)).
  - left. eauto using tensor_getitem_lt.
  - right. split; [lia|]. apply (tensor_getitem_ge _ _ _ Lx). lia.
Qed.

(** A field shorter than [logits] makes the loop run off its end. *)
Lemma format_predictions_short (outputs : dict) logits pred_boxes pred_masks pred_panoptic_seg
    n nb nm ns :
  outputs !! "logits" = Some (VTensor logits) →
  outputs !! "pred_boxes" = Some (VTensor pred_boxes) →
  outputs !! "pred_masks" = Some (VTensor pred_masks) →
  outputs !! "pred_panoptic_seg" = Some (VTensor pred_panoptic_seg) →
  Tensor.leading logits = Some n →
  Tensor.leading pred_boxes = Some nb →
  Tensor.leading pred_masks = Some nm →
  Tensor.leading pred_panoptic_seg = Some ns →
  nb < n ∨ nm < n ∨ ns < n →
  format_predictions outputs = Raise IndexError.
Proof.
  intros Hl Hb Hm Hs Ln Lb Lm Ls Hshort. unfold format_predictions.
  use_lookup Hl. use_lookup Hb. use_lookup Hm. use_lookup Hs.
  rewrite (tensor_shape0_leading _ _ Ln). simpl.
  unfold for_range. apply for_append_raise.
  - intros i _.
    destruct (tensor_getitem_cases _ _ i Ls) as [[_ ->]|[_ ->]]; simpl; [|by left].
    destruct (tensor_getitem_cases _ _ i Lm) as [[_ ->]|[_ ->]]; simpl; [|by left].
    destruct (tensor_getitem_cases _ _ i Lb) as [[_ ->]|[_ ->]]; simpl; [|by left].
    destruct (tensor_getitem_cases _ _ i Ln) as [[_ ->]|[_ ->]]; simpl; [|by left].
    destruct (tensor_argmax_last_cases (Tensor.slice logits i)) as [->|[r ->]];
      simpl; eauto.
  - exists (Nat.min (Nat.min nb nm) ns). split; [apply elem_of_seq; lia|].
    destruct (tensor_getitem_cases _ _ (Nat.min (Nat.min nb nm) ns) Ls)
      as [[? ->]|[_ ->]]; simpl; [|done].
    destruct (tensor_getitem_cases _ _ (Nat.min (Nat.min nb nm) ns) Lm)
      as [[? ->]|[_ ->]]; simpl; [|done].
    destruct (tensor_getitem_cases _ _ (Nat.min (Nat.min nb nm) ns) Lb)
      as [[? ->]|[_ ->]]; simpl; [|done].
    lia.
Qed.

(** C4 (amended).  [format_predictions] takes its length from [logits]
    alone and never compares the leading dimensions of the fields: when the
    other three fields are at least as long as [logits] (in particular when
    all four agree) and the class axis is not empty it returns exactly as
    many records as [logits] has rows, extra rows of longer fields being
    ignored; when some field is shorter than [logits] it raises
    [IndexError]. *)
Theorem format_predictions_length_from_logits
    (outputs : dict) logits pred_boxes pred_masks pred_panoptic_seg n nb nm ns :
  outputs !! "logits" = Some (VTensor logits) →
  outputs !! "pred_boxes" = Some (VTensor pred_boxes) →
  outputs !! "pred_masks" = Some (VTensor pred_masks) →
  outputs !! "pred_panoptic_seg" = Some (VTensor pred_panoptic_seg) →
  Tensor.leading logits = Some n →
  Tensor.leading pred_boxes = Some nb →
  Tensor.leading pred_masks = Some nm →
  Tensor.leading pred_panoptic_seg = Some ns →
  (n ≤ nb → n ≤ nm → n ≤ ns → Tensor.class_axis_nonempty logits →
     ∃ records, format_predictions outputs = Ok records ∧ length records = n)
  ∧
  (nb < n ∨ nm < n ∨ ns < n → format_predictions outputs = Raise IndexError).
Proof.
  intros Hl Hb Hm Hs Ln Lb Lm Ls. split.
  - intros Hnb Hnm Hns Hcls. eexists. split.
    + by eapply format_predictions_rows.
    + by rewrite length_map, length_seq.
  - intros Hshort. by eapply format_predictions_short.
Qed.

(** C5.  A target mapping with neither ['panoptic_masks'] nor ['labels']
    makes [format_targets] raise the [ValueError] whose message quotes both
    accepted key names. *)
Theorem format_targets_missing_masks (targets : dict) :
  targets !! "panoptic_masks" = None →
  targets !! "labels" = None →
  ∃ msg,
    format_targets targets = Raise (ValueError msg) ∧
    str_contains "'panoptic_masks'" msg = true ∧
    str_contains "'labels'" msg = true.
Proof.
  intros Hp Hl. exists missing_masks_message. unfold format_targets.
  rewrite Hp, Hl. simpl. split; [done|]. split; vm_compute; done.
Qed.

(** ** Adapting raw outputs *)

(** C2 (amended).  [adapt_output] reads the four prediction fields by
    attribute only.  It raises [AttributeError], naming the first of
    [logits], [pred_boxes], [pred_masks], [pred_panoptic_seg] that is not an
    attribute of the raw output, exactly when one of them is not an
    attribute, and succeeds otherwise: whether [loss] and [loss_dict] are
    there plays no part. *)
Theorem adapt_output_fails_iff_attr_missing (outputs : raw_output) :
  match first_missing_attr outputs with
  | Some name =>
      name ∈ prediction_fields ∧ attrs outputs !! name = None ∧
      adapt_output outputs = Raise (AttributeError name)
  | None =>
      Forall (λ name, is_Some (attrs outputs !! name)) prediction_fields ∧
      is_ok (adapt_output outputs) = true
  end.
Proof.
  unfold first_missing_attr, adapt_output, getattr, prediction_fields. simpl.
  destruct (attrs outputs !! "logits") as [l|] eqn:El; simpl;
    [|split; [set_solver|done]].
  destruct (attrs outputs !! "pred_boxes") as [b|] eqn:Eb; simpl;
    [|split; [set_solver|done]].
  destruct (attrs outputs !! "pred_masks") as [m|] eqn:Em; simpl;
    [|split; [set_solver|done]].
  destruct (attrs outputs !! "pred_panoptic_seg") as [s|] eqn:Es; simpl;
    [|split; [set_solver|done]].
  split; [|done]. repeat constructor; eauto.
Qed.

(** C3 (amended).  A raw output that exposes the four prediction fields as
    attributes and has neither a [loss] attribute nor, when it is a mapping,
    a ['loss'] key is adapted without error: [loss] is [None], the four
    prediction fields are copied and [loss_dict] is the attribute, or the
    empty dictionary in its absence. *)
Theorem adapt_output_loss_fallback (outputs : raw_output)
    (logits pred_boxes pred_masks pred_panoptic_seg : value) :
  attrs outputs !! "loss" = None →
  (∀ d, items outputs = Some d → d !! "loss" = None) →
  attrs outputs !! "logits" = Some logits →
  attrs outputs !! "pred_boxes" = Some pred_boxes →
  attrs outputs !! "pred_masks" = Some pred_masks →
  attrs outputs !! "pred_panoptic_seg" = Some pred_panoptic_seg →
  ∃ adapted,
    adapt_output outputs = Ok adapted ∧
    adapted !! "loss" = Some VNone ∧
    adapted !! "logits" = Some logits ∧
    adapted !! "pred_boxes" = Some pred_boxes ∧
    adapted !! "pred_masks" = Some pred_masks ∧
    adapted !! "pred_panoptic_seg" = Some pred_panoptic_seg ∧
    adapted !! "loss_dict" =
      Some (default (VDict ∅) (attrs outputs !! "loss_dict")).
Proof.
  intros Hloss Hkey Hl Hb Hm Hs.
  unfold adapt_output, getattr, getattr_default, raw_get, isinstance_dict, dict_get.
  rewrite Hloss, Hl, Hb, Hm, Hs. simpl.
  eexists. split; [reflexivity|].
  destruct (items outputs) as [d|] eqn:Ed; simpl.
  - rewrite (Hkey d eq_refl). simpl. by simplify_map_eq.
  - by simplify_map_eq.
Qed.

(** ** Adapting targets *)

Lemma adapt_targets_lookup (targets : dict) :
  ∃ adapted,
    adapt_targets targets = Ok adapted ∧
    adapted !! "labels" = adapted_labels targets ∧
    adapted !! "boxes" = targets !! "bounding_boxes" ∧
    adapted !! "class_labels" = targets !! "class_labels" ∧
    ∀ key, key ≠ "labels" → key ≠ "boxes" → key ≠ "class_labels" →
      adapted !! key = None.
Proof.
  unfold adapt_targets, adapted_labels. eexists. split; [reflexivity|].
  destruct (targets !! "panoptic_masks"), (targets !! "labels"),
    (targets !! "bounding_boxes"), (targets !! "class_labels");
    simpl; repeat split; intros; by simplify_map_eq.
Qed.

(** What a loop that returned has appended: one result per index, in
    order. *)
Lemma for_append_inv {A} (body : nat → result A) idx acc l :
  for_append body idx acc = Ok l →
  ∃ rs, l = acc ++ rs ∧ Forall2 (λ i r, body i = Ok r) idx rs.
Proof.
  revert acc. induction idx as [|k idx IH]; intros acc; simpl.
  - intros [= <-]. exists []. by rewrite app_nil_r.
  - destruct (body k) as [r|e] eqn:Hk; simpl; [|done].
    intros (rs & -> & Hrs)%IH. exists (r :: rs).
    split; [by rewrite <- app_assoc|]. by constructor.
Qed.

Lemma for_range_inv {A} (body : nat → result A) n l :
  for_range n body = Ok l →
  length l = n ∧ ∀ i r, l !! i = Some r → body i = Ok r.
Proof.
  unfold for_range. intros (rs & -> & Hrs)%for_append_inv. simpl. split.
  - apply Forall2_length in Hrs. by rewrite length_seq in Hrs.
  - intros i r Hi. destruct (Forall2_lookup_r _ _ _ _ _ Hrs Hi) as (j & Hj & Hbody).
    apply lookup_seq in Hj as [-> _]. done.
Qed.

(** C6.  When both ['panoptic_masks'] and ['labels'] are present, both
    functions use the value of ['panoptic_masks'] and never that of
    ['labels'].  [adapt_targets] files the value of ['panoptic_masks'] under
    [labels].  [format_targets] takes the number of records from its leading
    dimension and the mask of record [i] from its slice [i]: it fails as
    the [shape] of that value fails, every record of a returned list holds
    the slice of that value at its position, and with well-formed optional
    fields the list has one such record per row.  Neither function depends
    on the value stored under ['labels']: replacing it, or removing the
    key, changes nothing. *)
Theorem panoptic_masks_take_priority (targets : dict) (pm lb : value) :
  targets !! "panoptic_masks" = Some pm →
  targets !! "labels" = Some lb →
  (∃ adapted, adapt_targets targets = Ok adapted ∧ adapted !! "labels" = Some pm)
  ∧ (∀ other, adapt_targets (<["labels" := other]> targets) = adapt_targets targets)
  ∧ adapt_targets (delete "labels" targets) = adapt_targets targets
  ∧ (∀ other, format_targets (<["labels" := other]> targets) = format_targets targets)
  ∧ format_targets (delete "labels" targets) = format_targets targets
  ∧ (∀ e, shape0 pm = Raise e → format_targets targets = Raise e)
  ∧ (∀ records, format_targets targets = Ok records →
       shape0 pm = Ok (length records)
       ∧ ∀ i record, records !! i = Some record →
           ∃ masks, pm = VTensor masks
             ∧ record !! "panoptic_masks" = Some (VTensor (Tensor.slice masks i)))
  ∧ (∀ masks N,
       pm = VTensor masks →
       Tensor.leading masks = Some N →
       optional_batch N (targets !! "bounding_boxes") →
       optional_batch N (targets !! "class_labels") →
       ∃ records,
         format_targets targets = Ok records ∧ length records = N
         ∧ ∀ i, i < N →
             ∃ record, records !! i = Some record
               ∧ record !! "panoptic_masks" = Some (VTensor (Tensor.slice masks i))).
Proof.
  intros Hpm Hlb. split; [|split; [|split; [|split; [|split; [|split; [|split]]]]]].
  - destruct (adapt_targets_lookup targets) as (adapted & Had & Hlabels & _).
    exists adapted. split; [done|]. rewrite Hlabels. unfold adapted_labels. by rewrite Hpm.
  - intros other. unfold adapt_targets. by simplify_map_eq.
  - unfold adapt_targets. by simplify_map_eq.
  - intros other. unfold format_targets, dict_get. by simplify_map_eq.
  - unfold format_targets, dict_get. by simplify_map_eq.
  - intros e He. unfold format_targets. rewrite Hpm. simpl. by rewrite He.
  - intros records. unfold format_targets. rewrite Hpm. simpl.
    destruct (shape0 pm) as [n|e] eqn:Hn; simpl; [|done].
    intros [Hlen Hbody]%for_range_inv. split; [by rewrite Hlen|].
    intros i record Hi. apply Hbody in Hi.
    destruct pm as [|masks|d]; simpl in Hi; [done| |done].
    exists masks. split; [done|].
    destruct (Tensor.getitem masks i) as [m|e] eqn:Hm; simpl in Hi; [|done].
    assert (m = Tensor.slice masks i) as ->.
    { unfold Tensor.getitem in Hm. destruct (Tensor.shape masks); [done|].
      by destruct (decide (i < _)); simplify_eq. }
    destruct (is_none (dict_get targets "bounding_boxes"));
      [|destruct (getitem (dict_get targets "bounding_boxes") i);
        simpl in Hi; [|done]];
      simpl in Hi;
      (destruct (is_none (dict_get targets "class_labels"));
        [|destruct (getitem (dict_get targets "class_labels") i);
          simpl in Hi; [|done]]);
      simpl in Hi; injection Hi as <-; by simplify_map_eq.
  - intros masks N -> Lm Hb Hc. eexists. split; [|split].
    + apply format_targets_rows; [by left|done..].
    + by rewrite length_map, length_seq.
    + intros i Hi. eexists. split; [by apply lookup_map_seq0|].
      unfold target_record, with_field.
      destruct (slice_field (targets !! "class_labels") i),
        (slice_field (targets !! "bounding_boxes") i); by simplify_map_eq.
Qed.

(** C7.  [adapt_targets] always returns, and what it returns is a re-keying
    of part of its input: [labels] holds the value of ['panoptic_masks'] or
    else of ['labels'], [boxes] that of ['bounding_boxes'], [class_labels]
    that of ['class_labels'], a key whose input key is absent is absent,
    there is no other key, and so every value of the output is the value of
    some key of the input. *)
Theorem adapt_targets_rekeys_subset (targets : dict) :
  ∃ adapted,
    adapt_targets targets = Ok adapted ∧
    adapted !! "labels" = adapted_labels targets ∧
    adapted !! "boxes" = targets !! "bounding_boxes" ∧
    adapted !! "class_labels" = targets !! "class_labels" ∧
    dom adapted ⊆ ({["labels"; "boxes"; "class_labels"]} : gset string) ∧
    ∀ key v, adapted !! key = Some v → ∃ source, targets !! source = Some v.
Proof.
  destruct (adapt_targets_lookup targets) as (adapted & Had & Hl & Hb & Hc & Hother).
  exists adapted. repeat split; try done.
  - intros key Hkey. apply elem_of_dom in Hkey as [v Hv].
    destruct (decide (key = "labels")) as [->|?]; [set_solver|].
    destruct (decide (key = "boxes")) as [->|?]; [set_solver|].
    destruct (decide (key = "class_labels")) as [->|?]; [set_solver|].
    rewrite Hother in Hv by done. done.
  - intros key v Hv.
    destruct (decide (key = "labels")) as [->|?].
    { rewrite Hl in Hv. unfold adapted_labels in Hv.
      destruct (targets !! "panoptic_masks") eqn:E; [|by eauto].
      injection Hv as <-. eauto. }
    destruct (decide (key = "boxes")) as [->|?]; [rewrite Hb in Hv; eauto|].
    destruct (decide (key = "class_labels")) as [->|?]; [rewrite Hc in Hv; eauto|].
    rewrite Hother in Hv by done. done.
Qed.

(** C8 (amended).  [adapt_targets] never fails.  When neither
    ['panoptic_masks'] nor ['labels'] is in the input it returns a mapping
    without [labels], and likewise without [boxes] when ['bounding_boxes']
    is not in the input; the missing mask key is reported by
    [format_targets] only. *)
Theorem adapt_targets_total (targets : dict) :
  ∃ adapted,
    adapt_targets targets = Ok adapted ∧
    (targets !! "panoptic_masks" = None → targets !! "labels" = None →
       adapted !! "labels" = None) ∧
    (targets !! "bounding_boxes" = None → adapted !! "boxes" = None).
Proof.
  destruct (adapt_targets_lookup targets) as (adapted & Had & Hl & Hb & _).
  exists adapted. repeat split; [done| |].
  - intros Hpm Hlb. rewrite Hl. unfold adapted_labels. by rewrite Hpm.
  - intros Hbb. by rewrite Hb.
Qed.

(** ** Strings *)

Lemma str_prefix_app p s : str_prefix p (p +:+ s) = true.
Proof.
  induction p as [|a p IH]; simpl; [done|].
  by rewrite bool_decide_eq_true_2, IH.
Qed.

Lemma str_prefix_inv p s : str_prefix p s = true → ∃ post, s = p +:+ post.
Proof.
  revert s. induction p as [|a p IH]; intros s; simpl.
  - eauto.
  - destruct s as [|b s]; [done|].
    intros [Hab Hp]%andb_prop. apply bool_decide_eq_true_1 in Hab as ->.
    apply IH in Hp as [post ->]. eauto.
Qed.

Lemma str_prefix_contains p s : str_prefix p s = true → str_contains p s = true.
Proof. intros H. destruct s; simpl; by rewrite H. Qed.

Lemma str_contains_occurs sub s :
  str_contains sub s = true ↔ ∃ pre post, s = pre +:+ sub +:+ post.
Proof.
  split.
  - induction s as [|c s IH]; simpl.
    + rewrite orb_false_r. intros [post ->]%str_prefix_inv. by exists EmptyString, post.
    + intros [Hp|Hc]%orb_prop.
      * apply str_prefix_inv in Hp as [post ->]. by exists EmptyString, post.
      * apply IH in Hc as (pre & post & ->). by exists (String c pre), post.
  - intros (pre & post & ->). induction pre as [|c pre IH].
    + apply str_prefix_contains. change (EmptyString +:+ sub +:+ post) with (sub +:+ post).
      apply str_prefix_app.
    + change (String c pre +:+ sub +:+ post) with (String c (pre +:+ sub +:+ post)).
      simpl. by rewrite IH, orb_true_r.
Qed.

Lemma str_app_nil b : EmptyString +:+ b = b.
Proof. reflexivity. Qed.

Lemma str_app_cons c a b : String c a +:+ b = String c (a +:+ b).
Proof. reflexivity. Qed.

Lemma str_lower_app a b : str_lower (a +:+ b) = str_lower a +:+ str_lower b.
Proof.
  induction a as [|c a IH]; [done|].
  rewrite str_app_cons. simpl. by rewrite IH, str_app_cons.
Qed.

Lemma str_lower_split s a b :
  str_lower s = a +:+ b →
  ∃ s1 s2, s = s1 +:+ s2 ∧ str_lower s1 = a ∧ str_lower s2 = b.
Proof.
  revert s. induction a as [|c a IH]; intros s.
  - rewrite str_app_nil. intros <-. by exists EmptyString, s.
  - rewrite str_app_cons. destruct s as [|d s]; simpl; [done|].
    intros [= Hc Hs]. apply IH in Hs as (s1 & s2 & -> & <- & <-).
    exists (String d s1), s2. rewrite str_app_cons. simpl. by rewrite Hc.
Qed.

Lemma str_contains_lower pattern name :
  str_contains (str_lower pattern) (str_lower name) = true ↔
  occurs_ignoring_case pattern name.
Proof.
  rewrite str_contains_occurs. split.
  - intros (pre & post & H).
    apply str_lower_split in H as (s1 & s23 & -> & <- & H).
    apply str_lower_split in H as (s2 & s3 & -> & H & <-).
    by exists s1, s2, s3.
  - intros (pre & mid & post & -> & H).
    exists (str_lower pre), (str_lower post). by rewrite !str_lower_app, H.
Qed.

Lemma str_app_assoc a b c : (a +:+ b) +:+ c = a +:+ (b +:+ c).
Proof.
  induction a as [|x a IH]; [done|]. by rewrite !str_app_cons, IH.
Qed.

Lemma str_app_nil_r a : a +:+ EmptyString = a.
Proof. induction a as [|x a IH]; [done|]. by rewrite str_app_cons, IH. Qed.

Lemma ascii_lower_is_ascii c : is_ascii_byte (ascii_lower c) = is_ascii_byte c.
Proof. by destruct c as [[] [] [] [] [] [] [] []]. Qed.

Lemma str_lower_is_ascii s : str_is_ascii (str_lower s) = str_is_ascii s.
Proof.
  induction s as [|c s IH]; simpl; [done|]. by rewrite ascii_lower_is_ascii, IH.
Qed.

Section Lowering.

Variable unicode_lower : string → ascii → string → string.

(** On ASCII strings [str.lower] is the folding of [A-Z]. *)
Lemma lower_from_ascii before s after :
  str_is_ascii s = true → lower_from unicode_lower before s after = str_lower s.
Proof.
  revert before. induction s as [|c s IH]; intros before; simpl; [done|].
  intros [-> Hs]%andb_prop. by rewrite IH.
Qed.

Lemma py_lower_ascii s :
  str_is_ascii s = true → py_lower unicode_lower s = str_lower s.
Proof. apply lower_from_ascii. Qed.

Lemma lower_from_app before a b after :
  lower_from unicode_lower before (a +:+ b) after =
    lower_from unicode_lower before a (b +:+ after) +:+
    lower_from unicode_lower (before +:+ a) b after.
Proof.
  revert before. induction a as [|c a IH]; intros before.
  - by rewrite !str_app_nil, str_app_nil_r.
  - rewrite str_app_cons. cbn [lower_from].
    rewrite IH, !str_app_assoc, str_app_cons, str_app_nil. done.
Qed.

(** An occurrence of an ASCII pattern up to the case of [A-Z] is found in
    the lowered name, whatever else the name holds. *)
Lemma py_lower_occurs pattern name :
  str_is_ascii pattern = true →
  occurs_ignoring_case pattern name →
  str_contains (str_lower pattern) (py_lower unicode_lower name) = true.
Proof.
  intros Hp (pre & mid & post & -> & Hmid).
  assert (str_is_ascii mid = true) as Hascii
    by (by rewrite <- str_lower_is_ascii, Hmid, str_lower_is_ascii).
  apply str_contains_occurs. unfold py_lower.
  rewrite lower_from_app, lower_from_app, (lower_from_ascii _ mid _ Hascii), Hmid.
  eauto.
Qed.

End Lowering.

(** The folding of [A-Z] on every ASCII character from [@] to [{], on the
    digits, and on a byte outside ASCII. *)
Example str_lower_alphabet :
  str_lower ("@ABCDEFGHIJKLMNOPQRSTUVWXYZ[`abcxyz{0129 -_/" +:+ SampleNames.byte 200) =
    "@abcdefghijklmnopqrstuvwxyz[`abcxyz{0129 -_/" +:+ SampleNames.byte 200.
Proof. reflexivity. Qed.

(** ** Selection *)

Section SelectorProperties.

Context {processor : Type}.
Variable from_pretrained : string → Z → result processor.
Variable unicode_lower : string → ascii → string → string.

(** C9.  [get_input_adapter] is the registry lookup with the single pattern
    [mask2former], matched against the lowered name: a name in which the
    pattern occurs, whatever the case of its letters, gets the Mask2Former
    adapter built for that name; a name that matches no pattern of the
    registry (for an ASCII name: one without such an occurrence), such as
    [totally-unknown-arch], gets the no-op adapter and nothing is raised.
    [get_output_adapter] returns the panoptic output adapter for every
    name. *)
Theorem get_input_adapter_registry (model_name : string) (image_size : option Z) :
  get_input_adapter from_pretrained unicode_lower model_name image_size =
    select_input_adapter from_pretrained unicode_lower model_name
      (default default_image_size image_size)
  ∧ (occurs_ignoring_case "mask2former" model_name →
       get_input_adapter from_pretrained unicode_lower model_name image_size =
         new_Mask2FormerInputAdapter from_pretrained model_name
           (Some (default default_image_size image_size)))
  ∧ (first_match unicode_lower (input_registry from_pretrained) model_name = None →
       get_input_adapter from_pretrained unicode_lower model_name image_size =
         Ok NoOpInputAdapter)
  ∧ (str_is_ascii model_name = true →
     ¬ occurs_ignoring_case "mask2former" model_name →
       get_input_adapter from_pretrained unicode_lower model_name image_size =
         Ok NoOpInputAdapter)
  ∧ get_input_adapter from_pretrained unicode_lower "totally-unknown-arch"
      (Some 512%Z) = Ok NoOpInputAdapter
  ∧ get_output_adapter model_name = Ok PanopticSegmentationOutputAdapter.
Proof.
  unfold get_input_adapter, select_input_adapter, input_registry.
  cbn [first_match]. unfold case_insensitive_substring.
  change (py_lower unicode_lower "mask2former") with "mask2former".
  split; [|split; [|split; [|split; [|split]]]].
  - by destruct (str_contains "mask2former" (py_lower unicode_lower model_name)).
  - intros Hocc.
    apply (py_lower_occurs unicode_lower "mask2former") in Hocc; [|done].
    change (str_lower "mask2former") with "mask2former" in Hocc. by rewrite Hocc.
  - by destruct (str_contains "mask2former" (py_lower unicode_lower model_name)).
  - intros Hascii Hnot. rewrite py_lower_ascii by done.
    destruct (str_contains "mask2former" (str_lower model_name)) eqn:E; [|done].
    exfalso. apply Hnot, (str_contains_lower "mask2former"). done.
  - done.
  - done.
Qed.

(** C10.  The backward-compatible [get_panoptic_adapter] returns what
    [get_input_adapter] returns on the same arguments, the default image
    size included; in particular the two select the same kind of adapter. *)
Theorem get_panoptic_adapter_same (model_name : string) (image_size : option Z) :
  get_panoptic_adapter from_pretrained unicode_lower model_name image_size =
    get_input_adapter from_pretrained unicode_lower model_name image_size
  ∧ adapter_kind <$>
      get_panoptic_adapter from_pretrained unicode_lower model_name image_size =
    adapter_kind <$>
      get_input_adapter from_pretrained unicode_lower model_name image_size.
Proof.
  assert (get_panoptic_adapter from_pretrained unicode_lower model_name image_size =
          get_input_adapter from_pretrained unicode_lower model_name image_size)
    as ->; [|done].
  unfold get_panoptic_adapter. by destruct image_size.
Qed.

End SelectorProperties.

(** ** The operations on the sample data *)

Lemma format_index_correspondence_witness :
  (∃ records,
     format_predictions Sample.fields = Ok records ∧
     length records = 2 ∧
     ∀ i, i < 2 →
       records !! i =
         Some (prediction_record Sample.logits Sample.pred_boxes Sample.pred_masks
                 Sample.pred_panoptic_seg i))
  ∧
  (∃ records,
     format_targets Sample.masks_and_boxes = Ok records ∧
     length records = 2 ∧
     ∀ i, i < 2 →
       records !! i =
         Some (target_record Sample.pred_panoptic_seg
                 (Sample.masks_and_boxes !! "bounding_boxes")
                 (Sample.masks_and_boxes !! "class_labels") i)).
Proof.
  destruct (format_index_correspondence 2 (le_S 1 1 (le_n 1))) as [Hpred Htarg].
  split.
  - apply Hpred; try reflexivity. discriminate.
  - apply Htarg.
    + left. reflexivity.
    + reflexivity.
    + right. right. exists Sample.pred_boxes. split; reflexivity.
    + left. reflexivity.
Defined.

Lemma format_predictions_length_from_logits_witness :
  (∃ records, format_predictions Sample.long_fields = Ok records ∧ length records = 1)
  ∧ format_predictions Sample.short_fields = Raise IndexError.
Proof.
  split.
  - apply (format_predictions_length_from_logits Sample.long_fields
             Sample.logits1 Sample.pred_boxes Sample.pred_masks
             Sample.pred_panoptic_seg 1 2 2 2);
      try reflexivity; try (repeat constructor); discriminate.
  - apply (format_predictions_length_from_logits Sample.short_fields
             Sample.logits Sample.pred_boxes1 Sample.pred_masks
             Sample.pred_panoptic_seg 2 1 2 2);
      try reflexivity. left. constructor.
Defined.

Lemma format_targets_missing_masks_witness :
  ∃ msg,
    format_targets Sample.boxes_only = Raise (ValueError msg) ∧
    str_contains "'panoptic_masks'" msg = true ∧
    str_contains "'labels'" msg = true.
Proof. apply (format_targets_missing_masks Sample.boxes_only); reflexivity. Defined.

Lemma adapt_output_loss_fallback_witness :
  ∃ adapted,
    adapt_output (model_output Sample.fields) = Ok adapted ∧
    adapted !! "loss" = Some VNone ∧
    adapted !! "logits" = Some (VTensor Sample.logits) ∧
    adapted !! "pred_boxes" = Some (VTensor Sample.pred_boxes) ∧
    adapted !! "pred_masks" = Some (VTensor Sample.pred_masks) ∧
    adapted !! "pred_panoptic_seg" = Some (VTensor Sample.pred_panoptic_seg) ∧
    adapted !! "loss_dict" = Some (VDict ∅).
Proof.
  apply (adapt_output_loss_fallback (model_output Sample.fields)); try reflexivity.
  intros d [= <-]. reflexivity.
Defined.

Lemma panoptic_masks_take_priority_witness :
  (∃ adapted,
     adapt_targets Sample.masks_and_labels = Ok adapted ∧
     adapted !! "labels" = Some (VTensor Sample.pred_panoptic_seg))
  ∧ format_targets (delete "labels" Sample.masks_and_labels) =
      format_targets Sample.masks_and_labels
  ∧ (∃ records,
       format_targets Sample.masks_and_labels = Ok records ∧ length records = 2
       ∧ ∀ i, i < 2 →
           ∃ record, records !! i = Some record
             ∧ record !! "panoptic_masks" =
                 Some (VTensor (Tensor.slice Sample.pred_panoptic_seg i))).
Proof.
  destruct (panoptic_masks_take_priority Sample.masks_and_labels
              (VTensor Sample.pred_panoptic_seg) (VTensor Sample.pred_masks)
              eq_refl eq_refl) as (Hlabels & _ & _ & _ & Hdelete & _ & _ & Hrows).
  split; [exact Hlabels|]. split; [exact Hdelete|].
  apply (Hrows Sample.pred_panoptic_seg 2); [reflexivity..| |].
  - right. right. exists Sample.pred_boxes. split; reflexivity.
  - left. reflexivity.
Defined.

Lemma exposes_key (d : dict) name :
  is_Some (d !! name) → exposes (plain_dict d) name.
Proof. intros H. right. by exists d. Qed.

(** On a key-only mapping that holds every field, [loss] included,
    [adapt_output] raises although nothing is absent from its input. *)
Lemma adapt_output_key_only_counterexample :
  Forall (exposes (plain_dict Sample.fields_with_loss))
    ("loss" :: prediction_fields)
  ∧ adapt_output (plain_dict Sample.fields_with_loss) =
      Raise (AttributeError "logits").
Proof.
  split; [|reflexivity]. unfold prediction_fields.
  repeat (apply Forall_cons_2; [apply exposes_key; eexists; reflexivity|]).
  apply Forall_nil_2.
Qed.

(** On a key-only mapping without ['loss'] that holds the four prediction
    fields, [adapt_output] raises instead of returning a null loss. *)
Lemma adapt_output_no_loss_counterexample :
  attrs (plain_dict Sample.fields) !! "loss" = None
  ∧ items (plain_dict Sample.fields) = Some Sample.fields
  ∧ Sample.fields !! "loss" = None
  ∧ Forall (exposes (plain_dict Sample.fields)) prediction_fields
  ∧ adapt_output (plain_dict Sample.fields) = Raise (AttributeError "logits").
Proof.
  repeat split; try reflexivity. unfold prediction_fields.
  repeat (apply Forall_cons_2; [apply exposes_key; eexists; reflexivity|]).
  apply Forall_nil_2.
Qed.

(** Fields of different leading dimensions, and no error: the extra rows
    of the longer fields are dropped. *)
Lemma format_predictions_mismatch_counterexample :
  Tensor.leading Sample.logits1 = Some 1
  ∧ Tensor.leading Sample.pred_boxes = Some 2
  ∧ Sample.long_fields !! "logits" = Some (VTensor Sample.logits1)
  ∧ Sample.long_fields !! "pred_boxes" = Some (VTensor Sample.pred_boxes)
  ∧ format_predictions Sample.long_fields =
      Ok [prediction_record Sample.logits1 Sample.pred_boxes Sample.pred_masks
            Sample.pred_panoptic_seg 0].
Proof. repeat split; reflexivity. Qed.

(** No mask key in the input, and [adapt_targets] returns a mapping
    without [labels]. *)
Lemma adapt_targets_missing_masks_counterexample :
  Sample.boxes_only !! "panoptic_masks" = None
  ∧ Sample.boxes_only !! "labels" = None
  ∧ adapt_targets Sample.boxes_only =
      Ok (<["boxes" := VTensor Sample.pred_boxes]> ∅).
Proof. repeat split; reflexivity. Qed.

Lemma adapt_targets_total_witness :
  ∃ adapted,
    adapt_targets Sample.boxes_only = Ok adapted ∧ adapted !! "labels" = None.
Proof.
  destruct (adapt_targets_total Sample.boxes_only) as (adapted & Had & Hlabels & _).
  exists adapted. split; [exact Had|]. apply Hlabels; reflexivity.
Defined.

Lemma get_input_adapter_registry_witness :
  get_input_adapter SampleNames.loads SampleNames.unicode_lower
    "hub/MASK2FORMER-Swin-Tiny" None = Ok (Mask2FormerInputAdapter 512%Z ())
  ∧ get_input_adapter SampleNames.offline SampleNames.unicode_lower
      "deeplabv3_resnet50" None = Ok NoOpInputAdapter.
Proof.
  split.
  - destruct (get_input_adapter_registry SampleNames.loads SampleNames.unicode_lower
                "hub/MASK2FORMER-Swin-Tiny" None) as (_ & Hmatch & _).
    rewrite Hmatch; [reflexivity|].
    exists "hub/", "MASK2FORMER", "-Swin-Tiny". split; reflexivity.
  - destruct (get_input_adapter_registry SampleNames.offline
                SampleNames.unicode_lower "deeplabv3_resnet50" None)
      as (_ & _ & _ & Hdefault & _).
    apply Hdefault; [reflexivity|].
    intros Hocc. apply str_contains_lower in Hocc. discriminate Hocc.
Defined.

(** A name spelt with the Kelvin sign is lowered to one that holds
    [mask2former]; the same name is not matched when its non-ASCII bytes
    are left as they are. *)
Example get_input_adapter_kelvin :
  py_lower SampleNames.unicode_lower SampleNames.kelvin_name = "mask2former"
  ∧ get_input_adapter SampleNames.loads SampleNames.unicode_lower
      SampleNames.kelvin_name None = Ok (Mask2FormerInputAdapter 512%Z ())
  ∧ get_input_adapter SampleNames.loads (λ _ c _, String c EmptyString)
      SampleNames.kelvin_name None = Ok NoOpInputAdapter.
Proof. repeat split; reflexivity. Qed.

(** The records of the sample batch, evaluated. *)
Example format_predictions_sample :
  format_predictions Sample.fields =
    Ok [ <["panoptic_masks" := VTensor (Tensor.mk [2] [3; 3]%Z)]>
         (<["instance_masks" := VTensor (Tensor.mk [1; 2] [1; 0]%Z)]>
         (<["bounding_boxes" := VTensor (Tensor.mk [1; 4] [0; 0; 4; 4]%Z)]>
         (<["class_predictions" := VTensor (Tensor.mk [1] [1]%Z)]> ∅)));
         <["panoptic_masks" := VTensor (Tensor.mk [2] [4; 4]%Z)]>
         (<["instance_masks" := VTensor (Tensor.mk [1; 2] [0; 1]%Z)]>
         (<["bounding_boxes" := VTensor (Tensor.mk [1; 4] [1; 1; 3; 3]%Z)]>
         (<["class_predictions" := VTensor (Tensor.mk [1] [0]%Z)]> ∅))) ].
Proof. reflexivity. Qed.

(** ** Beyond the stated claims: the output adapter *)

(** X1.  Adapting a raw output whose four prediction attributes are batched
    over [N] samples and formatting the result yields [N] records, record
    [i] being the [i]-th slices: the two steps fit together without a key
    or shape error. *)
Theorem adapt_output_then_format_predictions (outputs : raw_output)
    logits pred_boxes pred_masks pred_panoptic_seg N :
  attrs outputs !! "logits" = Some (VTensor logits) →
  attrs outputs !! "pred_boxes" = Some (VTensor pred_boxes) →
  attrs outputs !! "pred_masks" = Some (VTensor pred_masks) →
  attrs outputs !! "pred_panoptic_seg" = Some (VTensor pred_panoptic_seg) →
  Tensor.leading logits = Some N →
  Tensor.leading pred_boxes = Some N →
  Tensor.leading pred_masks = Some N →
  Tensor.leading pred_panoptic_seg = Some N →
  Tensor.class_axis_nonempty logits →
  adapt_output outputs ≫= format_predictions =
    Ok (map (prediction_record logits pred_boxes pred_masks pred_panoptic_seg) (seq 0 N)).
Proof.
  intros Hl Hb Hm Hs Ln Lb Lm Ls Hcls.
  unfold adapt_output, getattr. rewrite Hl, Hb, Hm, Hs. simpl.
  eapply format_predictions_rows; eauto; by simplify_map_eq.
Qed.

(** X2.  When one of the four keys is not in its argument,
    [format_predictions] raises [KeyError] for the first missing one in the
    order [logits], [pred_boxes], [pred_masks], [pred_panoptic_seg],
    whatever the other entries are. *)
Theorem format_predictions_missing_key (outputs : dict) (key : string) :
  first_missing_key outputs = Some key →
  format_predictions outputs = Raise (KeyError (KStr key)).
Proof.
  unfold first_missing_key, format_predictions, subscript, prediction_fields. simpl.
  destruct (outputs !! "logits"); simpl; [|by intros [= <-]].
  destruct (outputs !! "pred_boxes"); simpl; [|by intros [= <-]].
  destruct (outputs !! "pred_masks"); simpl; [|by intros [= <-]].
  destruct (outputs !! "pred_panoptic_seg"); simpl; [|by intros [= <-]].
  done.
Qed.

(** X3.  The formatters read nothing but their own keys: two mappings that
    agree on [logits], [pred_boxes], [pred_masks] and [pred_panoptic_seg]
    are formatted alike by [format_predictions] (a [loss] or [loss_dict]
    entry changes nothing), and two mappings that agree on
    [panoptic_masks], [labels], [bounding_boxes] and [class_labels] are
    formatted alike by [format_targets]. *)
Theorem formatters_read_only_their_keys (d1 d2 : dict) :
  ((∀ key, key ∈ prediction_fields → d1 !! key = d2 !! key) →
     format_predictions d1 = format_predictions d2)
  ∧
  ((∀ key, key ∈ target_fields → d1 !! key = d2 !! key) →
     format_targets d1 = format_targets d2).
Proof.
  split; intros Hagree.
  - unfold format_predictions, subscript.
    rewrite !Hagree by (unfold prediction_fields; set_solver). done.
  - unfold format_targets, dict_get.
    rewrite !Hagree by (unfold target_fields; set_solver). done.
Qed.

(** X4.  An empty batch gives an empty list and the other fields are never
    indexed: with the four keys present and [logits] of leading dimension
    0, [format_predictions] returns [[]] even when the other three values
    are not tensors; [format_targets] likewise when the masks have leading
    dimension 0. *)
Theorem format_empty_batch :
  (∀ (outputs : dict) logits,
     outputs !! "logits" = Some (VTensor logits) →
     is_Some (outputs !! "pred_boxes") →
     is_Some (outputs !! "pred_masks") →
     is_Some (outputs !! "pred_panoptic_seg") →
     Tensor.leading logits = Some 0 →
     format_predictions outputs = Ok [])
  ∧
  (∀ (targets : dict) masks,
     has_masks targets (VTensor masks) →
     Tensor.leading masks = Some 0 →
     format_targets targets = Ok []).
Proof.
  split.
  - intros outputs logits Hl [b Hb] [m Hm] [s Hs] Ln. unfold format_predictions.
    use_lookup Hl. use_lookup Hb. use_lookup Hm. use_lookup Hs.
    by rewrite (tensor_shape0_leading _ _ Ln).
  - intros targets masks Hm Lm. unfold format_targets.
    rewrite (has_masks_select _ _ Hm). simpl.
    by rewrite (tensor_shape0_leading _ _ Lm).
Qed.

(** X5.  The mask key is chosen by presence, not by value: when
    ['panoptic_masks'] is present but holds [None] or another non-tensor,
    [format_targets] raises [AttributeError] on its [shape], and when it
    holds a 0-dim tensor [IndexError], without falling back to
    ['labels']. *)
Theorem format_targets_unusable_masks (targets : dict) (v : value) :
  targets !! "panoptic_masks" = Some v →
  ((∀ x, v ≠ VTensor x) → format_targets targets = Raise (AttributeError "shape"))
  ∧
  (∀ x, v = VTensor x → Tensor.shape x = [] → format_targets targets = Raise IndexError).
Proof.
  intros Hv. unfold format_targets. rewrite Hv. simpl. split.
  - intros Hnot. destruct v as [|x|d]; simpl; [done| |done]. by destruct (Hnot x).
  - intros x -> Hx. simpl. unfold Tensor.shape0. by rewrite Hx.
Qed.

Lemma optional_rows_getitem N field i :
  optional_rows N field → i < N →
  (if is_none (default VNone field) then Ok None
   else Some <$> getitem (default VNone field) i) = Ok (slice_field field i).
Proof.
  intros [->|[->|(x & n & -> & Lx & Hn)]] Hi; simpl; [done..|].
  rewrite (tensor_getitem_lt _ _ _ Lx) by lia. done.
Qed.

Lemma optional_tensor_getitem field i :
  optional_tensor field →
  is_none (default VNone field) = true ∨
  (is_none (default VNone field) = false ∧
   (getitem (default VNone field) i = Raise IndexError ∨
    ∃ r, getitem (default VNone field) i = Ok r)).
Proof.
  intros [->|[->|(x & n & -> & Lx)]]; simpl; [by left..|]. right. split; [done|].
  destruct (tensor_getitem_cases x n i Lx) as [[_ ->]|[_ ->]]; simpl; eauto.
Qed.

Lemma short_rows_getitem N field i :
  short_rows N field → N ≤ S i →
  is_none (default VNone field) = false ∧
  getitem (default VNone field) i = Raise IndexError.
Proof.
  intros (x & n & -> & Lx & Hn) Hi. simpl. split; [done|].
  rewrite (tensor_getitem_ge _ _ _ Lx) by lia. done.
Qed.

(** Target records when the optional fields have rows to spare. *)
Lemma format_targets_rows_spare (targets : dict) masks N :
  has_masks targets (VTensor masks) →
  Tensor.leading masks = Some N →
  optional_rows N (targets !! "bounding_boxes") →
  optional_rows N (targets !! "class_labels") →
  format_targets targets =
    Ok (map (target_record masks (targets !! "bounding_boxes") (targets !! "class_labels"))
            (seq 0 N)).
Proof.
  intros Hm Lm Hb Hc. unfold format_targets.
  rewrite (has_masks_select _ _ Hm). simpl.
  rewrite (tensor_shape0_leading _ _ Lm). simpl.
  apply for_range_ok. intros i Hi.
  rewrite (tensor_getitem_lt _ _ _ Lm) by done. simpl.
  pose proof (optional_rows_getitem _ _ i Hb Hi) as Eb.
  pose proof (optional_rows_getitem _ _ i Hc Hi) as Ec.
  unfold dict_get, target_record.
  destruct (is_none (default VNone (targets !! "bounding_boxes")));
    [|destruct (getitem (default VNone (targets !! "bounding_boxes")) i);
      simpl in Eb; [|done]];
    injection Eb as <-; simpl;
    (destruct (is_none (default VNone (targets !! "class_labels")));
      [|destruct (getitem (default VNone (targets !! "class_labels")) i);
        simpl in Ec; [|done]]);
    by injection Ec as <-.
Qed.

(** X6.  [format_targets] takes its length from the mask tensor alone.
    Optional fields with at least as many rows as the masks are sliced
    row by row and their extra rows dropped; an optional tensor with
    fewer rows than the masks makes the call raise [IndexError]. *)
Theorem format_targets_length_from_masks (targets : dict) masks N :
  has_masks targets (VTensor masks) →
  Tensor.leading masks = Some N →
  (optional_rows N (targets !! "bounding_boxes") →
   optional_rows N (targets !! "class_labels") →
   ∃ records,
     format_targets targets = Ok records ∧ length records = N ∧
     ∀ i, i < N →
       records !! i =
         Some (target_record masks (targets !! "bounding_boxes")
                 (targets !! "class_labels") i))
  ∧
  (optional_tensor (targets !! "bounding_boxes") →
   optional_tensor (targets !! "class_labels") →
   short_rows N (targets !! "bounding_boxes") ∨
     short_rows N (targets !! "class_labels") →
   format_targets targets = Raise IndexError).
Proof.
  intros Hm Lm. split.
  - intros Hb Hc. eexists. split; [|split].
    + by apply format_targets_rows_spare.
    + by rewrite length_map, length_seq.
    + intros i Hi. by apply lookup_map_seq0.
  - intros Hb Hc Hshort. unfold format_targets.
    rewrite (has_masks_select _ _ Hm). simpl.
    rewrite (tensor_shape0_leading _ _ Lm). simpl.
    unfold for_range, dict_get. apply for_append_raise.
    + intros i _.
      destruct (tensor_getitem_cases _ _ i Lm) as [[_ ->]|[_ ->]]; simpl; [|by left].
      destruct (optional_tensor_getitem _ i Hb) as [->|[-> [->|[b ->]]]]; simpl;
        [| by left |];
        (destruct (optional_tensor_getitem _ i Hc) as [->|[-> [->|[c ->]]]]; simpl;
          eauto).
    + assert (0 < N) as HN.
      { destruct Hshort as [(? & ? & _ & _ & ?)|(? & ? & _ & _ & ?)]; lia. }
      exists (N - 1). split; [apply elem_of_seq; lia|].
      rewrite (tensor_getitem_lt _ _ _ Lm) by lia. simpl.
      destruct Hshort as [Hs|Hs].
      * destruct (short_rows_getitem _ _ (N - 1) Hs) as [-> ->]; [lia|]. done.
      * destruct (short_rows_getitem _ _ (N - 1) Hs) as [Hn Hg]; [lia|].
        destruct (optional_tensor_getitem _ (N - 1) Hb) as [->|[-> [->|[b ->]]]];
          simpl; [| done |]; by rewrite Hn, Hg.
Qed.

(** X7.  Where the adapted [loss] comes from: a [loss] attribute other than
    [None] wins and the ['loss'] item of a mapping is then ignored; with
    the attribute missing or [None], a mapping contributes its ['loss']
    item ([None] when it has none) and any other object [None]. *)
Theorem adapt_output_loss_precedence (outputs : raw_output) (adapted : dict) :
  adapt_output outputs = Ok adapted →
  (∀ v, attrs outputs !! "loss" = Some v → v ≠ VNone →
     adapted !! "loss" = Some v)
  ∧ (loss_attribute outputs = None → ∀ d, items outputs = Some d →
       adapted !! "loss" = Some (default VNone (d !! "loss")))
  ∧ (loss_attribute outputs = None → items outputs = None →
       adapted !! "loss" = Some VNone).
Proof.
  unfold adapt_output, getattr, getattr_default, raw_get, isinstance_dict,
    dict_get, loss_attribute.
  destruct (attrs outputs !! "logits"); simpl; [|done].
  destruct (attrs outputs !! "pred_boxes"); simpl; [|done].
  destruct (attrs outputs !! "pred_masks"); simpl; [|done].
  destruct (attrs outputs !! "pred_panoptic_seg"); simpl; [|done].
  intros [= <-]. rewrite !lookup_insert_eq. repeat split.
  - intros w -> Hw. simpl. by destruct w.
  - intros Hnone d ->. simpl.
    destruct (attrs outputs !! "loss") as [[| |]|]; simpl in *; done.
  - intros Hnone ->. simpl.
    destruct (attrs outputs !! "loss") as [[| |]|]; simpl in *; done.
Qed.

(** X8.  Whenever [adapt_output] returns, the mapping has exactly the six
    keys [loss], [logits], [pred_boxes], [pred_masks], [pred_panoptic_seg]
    and [loss_dict]; the four prediction entries are the attributes of the
    raw output, and [loss_dict] is the attribute or an empty dictionary.
    So no key that [format_predictions] subscripts is missing from it. *)
Theorem adapt_output_keys (outputs : raw_output) (adapted : dict) :
  adapt_output outputs = Ok adapted →
  dom adapted = adapted_keys
  ∧ (∀ name, name ∈ prediction_fields → adapted !! name = attrs outputs !! name)
  ∧ adapted !! "loss_dict" = Some (default (VDict ∅) (attrs outputs !! "loss_dict"))
  ∧ first_missing_key adapted = None.
Proof.
  unfold adapt_output, getattr, getattr_default.
  destruct (attrs outputs !! "logits") eqn:El; simpl; [|done].
  destruct (attrs outputs !! "pred_boxes") eqn:Eb; simpl; [|done].
  destruct (attrs outputs !! "pred_masks") eqn:Em; simpl; [|done].
  destruct (attrs outputs !! "pred_panoptic_seg") eqn:Es; simpl; [|done].
  intros [= <-]. split; [|split; [|split]].
  - rewrite !dom_insert_L, dom_empty_L. unfold adapted_keys. set_solver.
  - intros name Hname. unfold prediction_fields in Hname.
    repeat (apply elem_of_cons in Hname as [->|Hname]; [by simplify_map_eq|]).
    by apply elem_of_nil in Hname.
  - by simplify_map_eq.
  - unfold first_missing_key, prediction_fields. simpl. by simplify_map_eq.
Qed.

(** ** Beyond the stated claims: the target adapter *)

Ltac map_cases key :=
  apply map_eq; intros key;
  destruct (decide (key = "labels")) as [->|?];
  [|destruct (decide (key = "boxes")) as [->|?];
    [|destruct (decide (key = "class_labels")) as [->|?]]];
  by simplify_map_eq.

(** X9.  [adapt_targets] is written for raw annotations only.  Applied to
    its own output it keeps [labels] and [class_labels] but loses the
    boxes, which it looks up under ['bounding_boxes'] and its output holds
    under [boxes]: the second application returns the first result with
    [boxes] deleted. *)
Theorem adapt_targets_twice (targets : dict) :
  adapt_targets targets ≫= adapt_targets = delete "boxes" <$> adapt_targets targets.
Proof.
  unfold adapt_targets.
  destruct (targets !! "panoptic_masks"), (targets !! "labels"),
    (targets !! "bounding_boxes"), (targets !! "class_labels");
    simpl; simplify_map_eq; simpl; f_equal; map_cases key.
Qed.

(** X10.  Formatting adapted targets: [format_targets] finds the masks of
    an adapted annotation under [labels] and its class labels, but not its
    boxes, which the adapted annotation holds under [boxes]; the records
    have no ['bounding_boxes'] entry whatever the input held there.  An
    annotation without a mask key is adapted without error and refused by
    [format_targets] afterwards. *)
Theorem adapt_targets_then_format_targets (targets : dict) :
  (∀ masks N,
     has_masks targets (VTensor masks) →
     Tensor.leading masks = Some N →
     optional_rows N (targets !! "class_labels") →
     adapt_targets targets ≫= format_targets =
       Ok (map (target_record masks None (targets !! "class_labels")) (seq 0 N)))
  ∧
  (targets !! "panoptic_masks" = None → targets !! "labels" = None →
     adapt_targets targets ≫= format_targets =
       Raise (ValueError missing_masks_message)).
Proof.
  destruct (adapt_targets_lookup targets) as (adapted & -> & Hl & Hb & Hc & Hother).
  simpl. split.
  - intros masks N Hm Lm Hcl.
    assert (adapted !! "panoptic_masks" = None) as Hpm by by apply Hother.
    assert (adapted !! "bounding_boxes" = None) as Hbb by by apply Hother.
    assert (adapted !! "labels" = Some (VTensor masks)) as Hlab.
    { rewrite Hl. unfold adapted_labels. by destruct Hm as [->|[-> ->]]. }
    rewrite (format_targets_rows_spare adapted masks N).
    + by rewrite Hbb, Hc.
    + by right.
    + done.
    + rewrite Hbb. by left.
    + by rewrite Hc.
  - intros Hpm Hlab. unfold format_targets.
    rewrite (Hother "panoptic_masks") by done.
    rewrite Hl. unfold adapted_labels. by rewrite Hpm, Hlab.
Qed.

(** ** Beyond the stated claims: selection *)

Section SelectorLoading.

Context {processor : Type}.
Variable from_pretrained : string → Z → result processor.
Variable unicode_lower : string → ascii → string → string.

(** X11.  For a name in which [mask2former] occurs, [get_input_adapter]
    calls the loader once with the name as given (not lowered) and the
    image size, 512 when none is given; the adapter holds that size and
    the loaded processor, and an error of the loader is passed on
    unchanged. *)
Theorem get_input_adapter_loads (model_name : string) (image_size : option Z) :
  occurs_ignoring_case "mask2former" model_name →
  get_input_adapter from_pretrained unicode_lower model_name image_size =
    Mask2FormerInputAdapter (default 512%Z image_size) <$>
      from_pretrained model_name (default 512%Z image_size).
Proof.
  intros Hocc. apply (py_lower_occurs unicode_lower "mask2former") in Hocc; [|done].
  change (str_lower "mask2former") with "mask2former" in Hocc.
  unfold get_input_adapter, new_Mask2FormerInputAdapter. rewrite Hocc. simpl.
  by destruct (from_pretrained model_name _).
Qed.

End SelectorLoading.

(** ** The further properties on the sample data *)

Lemma adapt_output_then_format_predictions_witness :
  adapt_output (model_output Sample.fields) ≫= format_predictions =
    Ok (map (prediction_record Sample.logits Sample.pred_boxes Sample.pred_masks
               Sample.pred_panoptic_seg) (seq 0 2)).
Proof.
  apply (adapt_output_then_format_predictions (model_output Sample.fields));
    try reflexivity. discriminate.
Defined.

Lemma format_predictions_missing_key_witness :
  format_predictions Sample2.two_fields = Raise (KeyError (KStr "pred_masks")).
Proof. apply (format_predictions_missing_key Sample2.two_fields). reflexivity. Defined.

Lemma formatters_read_only_their_keys_witness :
  format_predictions Sample.fields_with_loss = format_predictions Sample.fields.
Proof.
  apply (formatters_read_only_their_keys Sample.fields_with_loss Sample.fields).
  intros key Hkey. unfold Sample.fields_with_loss.
  apply lookup_insert_ne. intros <-. revert Hkey. unfold prediction_fields.
  rewrite !elem_of_cons, elem_of_nil. intros [?|[?|[?|[?|[]]]]]; discriminate.
Defined.

Lemma format_empty_batch_witness :
  format_predictions Sample2.empty_batch = Ok [].
Proof.
  apply (proj1 format_empty_batch Sample2.empty_batch Sample2.no_logits);
    try reflexivity; eexists; reflexivity.
Defined.

Lemma format_targets_unusable_masks_witness :
  format_targets Sample2.none_masks = Raise (AttributeError "shape").
Proof.
  apply (format_targets_unusable_masks Sample2.none_masks VNone); [reflexivity|].
  intros x. discriminate.
Defined.

Lemma format_targets_length_from_masks_witness :
  (∃ records,
     format_targets Sample2.long_boxes = Ok records ∧ length records = 1 ∧
     ∀ i, i < 1 →
       records !! i =
         Some (target_record Sample2.masks1 (Sample2.long_boxes !! "bounding_boxes")
                 (Sample2.long_boxes !! "class_labels") i))
  ∧ format_targets Sample2.short_boxes = Raise IndexError.
Proof.
  split.
  - apply (format_targets_length_from_masks Sample2.long_boxes Sample2.masks1 1).
    + right. split; reflexivity.
    + reflexivity.
    + right. right. exists Sample.pred_boxes, 2.
      split; [reflexivity|]. split; [reflexivity|]. repeat constructor.
    + right. right. exists Sample2.class_labels, 2.
      split; [reflexivity|]. split; [reflexivity|]. repeat constructor.
  - apply (format_targets_length_from_masks Sample2.short_boxes
             Sample.pred_panoptic_seg 2).
    + left. reflexivity.
    + reflexivity.
    + right. right. exists Sample.pred_boxes1, 1. split; reflexivity.
    + left. reflexivity.
    + left. exists Sample.pred_boxes1, 1.
      split; [reflexivity|]. split; [reflexivity|]. repeat constructor.
Defined.

Lemma adapt_output_loss_precedence_witness :
  (∃ adapted,
     adapt_output Sample2.both_losses = Ok adapted ∧
     adapted !! "loss" = Some Sample2.attr_loss)
  ∧
  (∃ adapted,
     adapt_output Sample2.key_loss_only = Ok adapted ∧
     adapted !! "loss" = Some Sample2.key_loss).
Proof.
  split; eexists; (split; [reflexivity|]).
  - eapply (adapt_output_loss_precedence Sample2.both_losses); [reflexivity..|].
    discriminate.
  - exact (proj1 (proj2 (adapt_output_loss_precedence Sample2.key_loss_only _
                           eq_refl)) eq_refl Sample.fields_with_loss eq_refl).
Defined.

Lemma adapt_output_keys_witness :
  ∃ adapted,
    adapt_output (model_output Sample.fields) = Ok adapted ∧
    dom adapted = adapted_keys ∧ first_missing_key adapted = None.
Proof.
  eexists. split; [reflexivity|].
  destruct (adapt_output_keys (model_output Sample.fields) _ eq_refl)
    as (Hdom & _ & _ & Hkeys).
  exact (conj Hdom Hkeys).
Defined.

Lemma adapt_targets_then_format_targets_witness :
  adapt_targets Sample2.annotation ≫= format_targets =
    Ok (map (target_record Sample.pred_panoptic_seg None
               (Some (VTensor Sample2.class_labels))) (seq 0 2))
  ∧ adapt_targets Sample.boxes_only ≫= format_targets =
      Raise (ValueError missing_masks_message).
Proof.
  split.
  - apply (proj1 (adapt_targets_then_format_targets Sample2.annotation)
             Sample.pred_panoptic_seg 2).
    + left. reflexivity.
    + reflexivity.
    + right. right. exists Sample2.class_labels, 2.
      split; [reflexivity|]. split; [reflexivity|]. repeat constructor.
  - apply (proj2 (adapt_targets_then_format_targets Sample.boxes_only));
      reflexivity.
Defined.

Lemma get_input_adapter_loads_witness :
  get_input_adapter (λ name size, Raise (ValueError name) : result unit)
    SampleNames.unicode_lower "facebook/Mask2Former-Swin-Tiny" None =
    Raise (ValueError "facebook/Mask2Former-Swin-Tiny")
  ∧ get_input_adapter (λ _ size, Ok size) SampleNames.unicode_lower "MASK2FORMER"
      (Some 384%Z) = Ok (Mask2FormerInputAdapter 384%Z 384%Z).
Proof.
  split.
  - apply (get_input_adapter_loads
             (λ name size, Raise (ValueError name) : result unit)
             SampleNames.unicode_lower "facebook/Mask2Former-Swin-Tiny" None).
    exists "facebook/", "Mask2Former", "-Swin-Tiny". split; reflexivity.
  - apply (get_input_adapter_loads (λ _ size, Ok size) SampleNames.unicode_lower
             "MASK2FORMER" (Some 384%Z)).
    exists "", "MASK2FORMER", "". split; reflexivity.
Defined.

(** ** Beyond the stated claims: checkpoints of the segmentation model *)

Section CheckpointHooks.

Context {float : Type}.

Import SemanticModel.

Implicit Types (config saved current : Config float)
  (checkpoint : gmap string (pyval float)).

(** X12.  Save then load: loading a checkpoint written by
    [on_save_checkpoint] succeeds and gives the loading configuration the
    saved class names, learning rate, weight decay, scheduler and scheduler
    parameters, whatever the checkpoint held before the save; its other
    fields stay as they were. *)
Theorem checkpoint_round_trip saved current checkpoint :
  on_load_checkpoint current (on_save_checkpoint saved checkpoint) =
    (mk_config (model_name current) (num_classes current) (pretrained current)
       (learning_rate saved) (weight_decay saved) (scheduler saved)
       (scheduler_params saved) (epochs current) (class_names saved)
       (model_kwargs current) (image_size current) (num_workers current),
     Ok ()).
Proof.
  unfold on_load_checkpoint, on_save_checkpoint, py_subscript.
  by simplify_map_eq.
Qed.

(** X13.  [on_load_checkpoint] never touches the model name, the number of
    classes, the pretrained flag, the epochs, the model arguments, the
    image size or the number of workers, whether it returns or raises; and
    a checkpoint with neither ['class_names'] nor ['optimizer_params']
    leaves the whole configuration as it is. *)
Theorem on_load_checkpoint_frame config checkpoint :
  architecture (on_load_checkpoint config checkpoint).1 = architecture config
  ∧ (checkpoint !! "class_names" = None →
     checkpoint !! "optimizer_params" = None →
     on_load_checkpoint config checkpoint = (config, Ok ())).
Proof.
  unfold on_load_checkpoint. split.
  - destruct (checkpoint !! "class_names");
      (destruct (checkpoint !! "optimizer_params") as [entry|]; [|done]);
      destruct (py_subscript entry "learning_rate"); try done;
      destruct (py_subscript entry "weight_decay"); try done;
      destruct (py_subscript entry "scheduler"); try done;
      destruct (py_subscript entry "scheduler_params"); done.
  - by intros -> ->.
Qed.

(** X14.  A checkpoint whose ['optimizer_params'] is incomplete is loaded
    half-way.  When the entry is a dictionary with ['learning_rate'] but
    without ['weight_decay'], the hook raises [KeyError] for
    ['weight_decay'] after it has already replaced the class names (if
    the checkpoint has them) and the learning rate; weight decay,
    scheduler and scheduler parameters keep their old values.  When the
    entry is not a dictionary the hook raises [TypeError] after replacing
    the class names only. *)
Theorem on_load_checkpoint_partial config checkpoint :
  (∀ d lr,
     checkpoint !! "optimizer_params" = Some (PDict d) →
     d !! "learning_rate" = Some lr →
     d !! "weight_decay" = None →
     on_load_checkpoint config checkpoint =
       (mk_config (model_name config) (num_classes config) (pretrained config)
          lr (weight_decay config) (scheduler config) (scheduler_params config)
          (epochs config) (default (class_names config) (checkpoint !! "class_names"))
          (model_kwargs config) (image_size config) (num_workers config),
        Raise (KeyError (KStr "weight_decay"))))
  ∧
  (∀ v,
     checkpoint !! "optimizer_params" = Some v →
     (∀ d, v ≠ PDict d) →
     on_load_checkpoint config checkpoint =
       (mk_config (model_name config) (num_classes config) (pretrained config)
          (learning_rate config) (weight_decay config) (scheduler config)
          (scheduler_params config) (epochs config)
          (default (class_names config) (checkpoint !! "class_names"))
          (model_kwargs config) (image_size config) (num_workers config),
        Raise TypeError)).
Proof.
  split.
  - intros d lr Hp Hlr Hwd. unfold on_load_checkpoint, py_subscript.
    rewrite Hp, Hlr, Hwd. by destruct (checkpoint !! "class_names"), config.
  - intros v Hp Hv. unfold on_load_checkpoint. rewrite Hp.
    assert (py_subscript v "learning_rate" = Raise TypeError) as ->.
    { destruct v; try done. by destruct (Hv d). }
    by destruct (checkpoint !! "class_names"), config.
Qed.

(** X15.  [on_save_checkpoint] writes ['class_names'] and
    ['optimizer_params'] and nothing else: every other entry of the
    checkpoint is kept, and what an earlier save wrote under the two keys
    is replaced, so saving twice leaves the later configuration's values
    only. *)
Theorem on_save_checkpoint_overwrites saved config checkpoint :
  on_save_checkpoint config (on_save_checkpoint saved checkpoint) =
    on_save_checkpoint config checkpoint
  ∧ ∀ key, key ≠ "class_names" → key ≠ "optimizer_params" →
      on_save_checkpoint config checkpoint !! key = checkpoint !! key.
Proof.
  unfold on_save_checkpoint. split.
  - apply map_eq. intros key.
    destruct (decide (key = "optimizer_params")) as [->|?]; [by simplify_map_eq|].
    destruct (decide (key = "class_names")) as [->|?]; by simplify_map_eq.
  - intros key ? ?. by simplify_map_eq.
Qed.

End CheckpointHooks.

(** ** Beyond the stated claims: optimizer parameter groups *)

Lemma filter_partition_perm {A} (f : A → bool) (l : list A) :
  List.filter f l ++ List.filter (λ a, negb (f a)) l ≡ₚ l.
Proof.
  induction l as [|a l IH]; simpl; [done|].
  destruct (f a); simpl.
  - by rewrite IH.
  - by rewrite <- Permutation_middle, IH.
Qed.

Section ParameterGroups.

Context {float parameter : Type}.
Variable py_mul : pyval float → pyval float → result (pyval float).
Variable float_0_1 : float.

Import SemanticModel.

Lemma split_parameters_filter (named : list (string * parameter)) backbone other :
  split_parameters named backbone other =
    (backbone ++ map snd (List.filter in_backbone named),
     other ++ map snd (List.filter (λ p, negb (in_backbone p)) named)).
Proof.
  revert backbone other. induction named as [|[name param] named IH];
    intros backbone other; cbn [split_parameters List.filter].
  - by rewrite !app_nil_r.
  - assert (in_backbone (name, param) = str_contains "backbone" name) as -> by done.
    destruct (str_contains "backbone" name); cbn [negb map snd];
      rewrite IH, <- !app_assoc; done.
Qed.

(** X16.  The two parameter groups built for a model with a backbone split
    the named parameters without loss or repetition: the first group holds,
    in order, the parameters whose name contains [backbone] (in lower
    case), with the learning rate multiplied by 0.1; the second holds all
    the others, in order, with the configured learning rate; both carry
    the configured weight decay, and together they are a rearrangement of
    all the parameters. *)
Theorem backbone_param_groups_partition (config : Config float)
    (named : list (string * parameter)) (backbone_lr : pyval float) :
  py_mul (learning_rate config) (PFloat float_0_1) = Ok backbone_lr →
  ∃ backbone other,
    backbone_param_groups py_mul float_0_1 config named =
      Ok [ mk_group backbone backbone_lr (weight_decay config);
           mk_group other (learning_rate config) (weight_decay config) ]
    ∧ backbone = map snd (List.filter in_backbone named)
    ∧ other = map snd (List.filter (λ p, negb (in_backbone p)) named)
    ∧ backbone ++ other ≡ₚ map snd named.
Proof.
  intros Hmul. unfold backbone_param_groups.
  rewrite split_parameters_filter, Hmul. simpl.
  eexists _, _. split; [reflexivity|]. split; [done|]. split; [done|].
  rewrite <- map_app. apply Permutation_map, filter_partition_perm.
Qed.

End ParameterGroups.

(** ** Beyond the stated claims: the logged batch size *)

(** X17.  The guarded read of the batch size never raises: it is the
    leading dimension of [batch["pixel_values"]] when that is a tensor
    with at least one axis, and [None] when the key is missing, the value
    is not a tensor, or the tensor is 0-dimensional. *)
Theorem logged_batch_size_total (batch : dict) :
  SemanticModel.logged_batch_size batch =
    Ok (match batch !! "pixel_values" with
        | Some (VTensor x) => Tensor.leading x
        | _ => None
        end).
Proof.
  unfold SemanticModel.logged_batch_size, subscript.
  destruct (batch !! "pixel_values") as [[|x|d]|]; simpl; try done.
  unfold Tensor.shape0, Tensor.leading. by destruct (Tensor.shape x).
Qed.

(** ** Beyond the stated claims: the trainer configuration *)

Section TrainerConfig.

Context {float filesystem : Type}.
Variable float_is_zero : float → bool.
Variable makedirs : pyval float → filesystem → filesystem * result ().

Import Trainer.

Implicit Types (config : gmap string (pyval float)) (c : UnifiedTrainerConfig float)
  (fs : filesystem).

Lemma fields_from_dict_fields config c :
  fields_from_dict config = Ok c →
  section_get config "data" "num_workers" = Ok (num_workers c)
  ∧ section_get config "training" "use_gpu" = Ok (use_gpu c)
  ∧ section_get config "training" "resources_per_worker" = Ok (resources_per_worker c)
  ∧ experiment_name c = PNone ∧ run_name c = PNone.
Proof.
  unfold fields_from_dict.
  repeat (match goal with
          | |- context [section_get config ?s ?k ≫= _] =>
              destruct (section_get config s k); simpl; [|done]
          end).
  by intros [= <-].
Qed.

(** X18.  A configuration dictionary whose ['resources_per_worker'] is
    [None] gets the default resources once the checkpoint directory has
    been made: one CPU, and one GPU when [use_gpu] is true, none
    otherwise.  The Ray cluster is then asked for the number of workers of
    the ['data'] section, one CPU per node and that number of GPUs, and
    the lookup of these resources cannot fail. *)
Theorem config_from_dict_default_resources config c fs fs' :
  fields_from_dict config = Ok c →
  resources_per_worker c = PNone →
  makedirs (checkpoint_dir c) fs = (fs', Ok ()) →
  ∃ c',
    config_from_dict float_is_zero makedirs config fs = (fs', Ok c')
    ∧ resources_per_worker c' = default_resources float_is_zero (use_gpu c)
    ∧ section_get config "data" "num_workers" = Ok (num_workers c')
    ∧ ray_cluster_arguments float_is_zero c' =
        Ok (num_workers c', PInt 1,
            PInt (if py_truthy float_is_zero (use_gpu c) then 1 else 0)).
Proof.
  intros Hfields Hres Hmk. unfold config_from_dict, post_init.
  rewrite Hfields, Hmk, Hres. eexists. split; [reflexivity|].
  destruct (fields_from_dict_fields _ _ Hfields) as (Hnw & _).
  split; [done|]. split; [done|].
  unfold ray_cluster_arguments, default_resources. simpl.
  rewrite lookup_insert_eq. simpl.
  destruct (py_truthy float_is_zero (use_gpu c)); simpl; [|done].
  by simplify_map_eq.
Qed.

(** X19.  The default applies to an explicit [None] only.  When the
    ['training'] section has no ['resources_per_worker'] entry the
    construction from a dictionary always fails, before the checkpoint
    directory is made: the file system is left as it was. *)
Theorem config_from_dict_requires_resources_key config training fs :
  config !! "training" = Some (PDict training) →
  training !! "resources_per_worker" = None →
  ∃ e, config_from_dict float_is_zero makedirs config fs = (fs, Raise e).
Proof.
  intros Htr Hres. unfold config_from_dict.
  assert (section_get config "training" "resources_per_worker" =
          Raise (KeyError (KStr "resources_per_worker"))) as Hget.
  { unfold section_get. simpl. rewrite Htr. simpl. by rewrite Hres. }
  assert (∃ e, fields_from_dict config = Raise e) as [e ->]; [|eauto].
  unfold fields_from_dict. rewrite Hget.
  repeat (match goal with
          | |- context [section_get config ?s ?k ≫= _] =>
              destruct (section_get config s k); simpl; [|eauto]
          end).
  eauto.
Qed.

(** X20.  Of the resources, [train] and [tune] always read ['CPU'] but
    read ['GPU'] only when [use_gpu] is true: with [use_gpu] false, zero
    GPUs are requested even when the resources have no ['GPU'] entry; with
    [use_gpu] true the missing entry raises [KeyError]; and resources
    without ['CPU'] raise [KeyError] in either case. *)
Theorem ray_cluster_arguments_reads c resources :
  resources_per_worker c = PDict resources →
  (∀ cpus, resources !! "CPU" = Some cpus →
     py_truthy float_is_zero (use_gpu c) = false →
     ray_cluster_arguments float_is_zero c = Ok (num_workers c, cpus, PInt 0))
  ∧ (∀ cpus, resources !! "CPU" = Some cpus →
       py_truthy float_is_zero (use_gpu c) = true →
       ray_cluster_arguments float_is_zero c =
         match resources !! "GPU" with
         | Some gpus => Ok (num_workers c, cpus, gpus)
         | None => Raise (KeyError (KStr "GPU"))
         end)
  ∧ (resources !! "CPU" = None →
       ray_cluster_arguments float_is_zero c = Raise (KeyError (KStr "CPU"))).
Proof.
  intros Hres. unfold ray_cluster_arguments. rewrite Hres. simpl.
  split; [|split].
  - by intros cpus -> ->.
  - intros cpus -> ->. simpl. by destruct (resources !! "GPU").
  - by intros ->.
Qed.

End TrainerConfig.

(** ** Checkpoints, parameter groups and trainer configuration on samples *)

Lemma on_load_checkpoint_partial_witness :
  SemanticModel.on_load_checkpoint Sample3.config Sample3.half_checkpoint =
    (SemanticModel.set_learning_rate (PFloat "3e-5") Sample3.config,
     Raise (KeyError (KStr "weight_decay"))).
Proof.
  exact (proj1 (on_load_checkpoint_partial Sample3.config Sample3.half_checkpoint)
           (<["learning_rate" := PFloat "3e-5"]> ∅) (PFloat "3e-5")
           eq_refl eq_refl eq_refl).
Defined.

Lemma backbone_param_groups_partition_witness :
  ∃ backbone other,
    SemanticModel.backbone_param_groups Sample3.mul "0.1" Sample3.config
      Sample3.named_parameters =
      Ok [ SemanticModel.mk_group backbone (PFloat "1e-4*0.1") (PFloat "0.01");
           SemanticModel.mk_group other (PFloat "1e-4") (PFloat "0.01") ]
    ∧ backbone = [0; 3]
    ∧ other = [1; 2]
    ∧ backbone ++ other ≡ₚ [0; 1; 2; 3].
Proof.
  exact (backbone_param_groups_partition Sample3.mul "0.1" Sample3.config
           Sample3.named_parameters (PFloat "1e-4*0.1") eq_refl).
Defined.

Lemma config_from_dict_default_resources_witness :
  ∃ c',
    Trainer.config_from_dict Sample3.float_is_zero Sample3.makedirs
      (Sample3.trainer_dict PNone) [] = ([PStr "/tmp/ckpt"], Ok c')
    ∧ Trainer.resources_per_worker c' =
        PDict (<["CPU" := PInt 1]> (<["GPU" := PInt 1]> ∅))
    ∧ Trainer.section_get (Sample3.trainer_dict PNone) "data" "num_workers" =
        Ok (Trainer.num_workers c')
    ∧ Trainer.ray_cluster_arguments Sample3.float_is_zero c' =
        Ok (Trainer.num_workers c', PInt 1, PInt 1).
Proof.
  exact (config_from_dict_default_resources Sample3.float_is_zero Sample3.makedirs
           (Sample3.trainer_dict PNone) _ [] [PStr "/tmp/ckpt"]
           eq_refl eq_refl eq_refl).
Defined.

Lemma config_from_dict_requires_resources_key_witness :
  ∃ e,
    Trainer.config_from_dict Sample3.float_is_zero Sample3.makedirs
      Sample3.trainer_dict_no_resources [] = ([], Raise e).
Proof.
  exact (config_from_dict_requires_resources_key Sample3.float_is_zero
           Sample3.makedirs Sample3.trainer_dict_no_resources _ [] eq_refl eq_refl).
Defined.

Lemma ray_cluster_arguments_reads_witness :
  Trainer.ray_cluster_arguments Sample3.float_is_zero Sample3.cpu_only =
    Ok (PInt 4, PInt 8, PInt 0).
Proof.
  exact (proj1 (ray_cluster_arguments_reads Sample3.float_is_zero Sample3.cpu_only
                  (<["CPU" := PInt 8]> ∅) eq_refl) (PInt 8) eq_refl eq_refl).
Defined.

(** The missing entry is the one reported. *)
Example config_from_dict_missing_resources :
  Trainer.config_from_dict Sample3.float_is_zero Sample3.makedirs
    Sample3.trainer_dict_no_resources [] =
    ([], Raise (KeyError (KStr "resources_per_worker"))).
Proof. reflexivity. Qed.

(** ** Beyond the stated claims: UnifiedTrainer.test *)

Section TrainerTest.

Context {float model data_module callbacks lightning_trainer logger results : Type}.

Import UnifiedTrainer.

Abbreviation trainer_object :=
  (UnifiedTrainer.t float model data_module lightning_trainer logger).

Variable float_is_zero : float → bool.
Variable init_callbacks : Trainer.UnifiedTrainerConfig float → result callbacks.
Variable distributed_trainer local_trainer :
  Trainer.UnifiedTrainerConfig float → callbacks → option logger →
  result lightning_trainer.
Variable prepare_trainer : lightning_trainer → result lightning_trainer.
Variable run_test : lightning_trainer → model → data_module → result results.

Abbreviation test_with := (test float_is_zero init_callbacks distributed_trainer
                             prepare_trainer local_trainer run_test).

(** X21.  [test] stores its arguments before it checks them.  When the
    model or the data module is still missing after the arguments have
    been taken over, the call raises [ValueError], no Lightning trainer is
    built, and the object keeps the argument that was given: a failed call
    with a model replaces the stored model. *)
Theorem test_stores_arguments_before_guard (self : trainer_object)
    (model_arg : option model) (data_module_arg : option data_module) :
  (model_arg = None ∧ self_model self = None) ∨
    (data_module_arg = None ∧ self_data_module self = None) →
  test_with self model_arg data_module_arg =
    (mk (self_config self)
        (match model_arg with Some m => Some m | None => self_model self end)
        (match data_module_arg with
         | Some d => Some d
         | None => self_data_module self
         end)
        (self_trainer self) (self_logger self),
     Raise (ValueError missing_message)).
Proof.
  unfold test.
  intros [[-> Hm]|[-> Hd]]; destruct self as [c m d tr lg]; simpl in *; subst.
  - by destruct data_module_arg.
  - by destruct model_arg as [m'|]; [|destruct m].
Qed.

(** X22.  In distributed mode [_init_trainer] assigns the Lightning
    trainer before [prepare_trainer] has accepted it.  When
    [prepare_trainer] raises during a [test] call, the error is passed on
    and the object keeps the unprepared trainer; the next [test] call finds
    a trainer, builds nothing and runs the test on the unprepared one. *)
Theorem test_after_failed_prepare (self : trainer_object) m d cbs tr e :
  self_model self = Some m →
  self_data_module self = Some d →
  self_trainer self = None →
  Trainer.py_truthy float_is_zero (Trainer.distributed (self_config self)) = true →
  init_callbacks (self_config self) = Ok cbs →
  distributed_trainer (self_config self) cbs (self_logger self) = Ok tr →
  prepare_trainer tr = Raise e →
  test_with self None None = (set_trainer tr self, Raise e)
  ∧ test_with (set_trainer tr self) None None =
      (set_trainer tr self, run_test tr m d).
Proof.
  intros Hm Hd Htr Hdist Hcb Hbuild Hprep.
  unfold test, _init_trainer, call_trainer_test. simpl.
  by rewrite Hm, Hd, Htr, Hcb, Hdist, Hbuild, Hprep.
Qed.

(** X23.  A Lightning trainer is built at most once.  A [test] call on an
    object without one builds it (here in local mode), keeps it and runs
    the test with it; any later [test] call runs on the kept trainer and
    calls none of the constructors, whatever they would return. *)
Theorem test_builds_trainer_once (self : trainer_object) m d cbs tr
    (init_callbacks' : Trainer.UnifiedTrainerConfig float → result callbacks)
    (distributed_trainer' local_trainer' :
       Trainer.UnifiedTrainerConfig float → callbacks → option logger →
       result lightning_trainer)
    (prepare_trainer' : lightning_trainer → result lightning_trainer) :
  self_model self = Some m →
  self_data_module self = Some d →
  self_trainer self = None →
  Trainer.py_truthy float_is_zero (Trainer.distributed (self_config self)) = false →
  init_callbacks (self_config self) = Ok cbs →
  local_trainer (self_config self) cbs (self_logger self) = Ok tr →
  test_with self None None = (set_trainer tr self, run_test tr m d)
  ∧ test float_is_zero init_callbacks' distributed_trainer' prepare_trainer'
      local_trainer' run_test (set_trainer tr self) None None =
      (set_trainer tr self, run_test tr m d).
Proof.
  intros Hm Hd Htr Hdist Hcb Hbuild.
  unfold test, _init_trainer, call_trainer_test. simpl.
  by rewrite Hm, Hd, Htr, Hcb, Hdist, Hbuild.
Qed.

End TrainerTest.

(** ** Beyond the stated claims: what the records hold *)

Lemma chunks_concat_take (s n : nat) (l : list Z) :
  concat (map (λ i, take s (drop (i * s) l)) (seq 0 n)) = take (n * s) l.
Proof.
  induction n as [|n IH]; [done|].
  rewrite seq_S, map_app, concat_app, IH. cbn [map concat plus].
  rewrite app_nil_r, take_take_drop. f_equal. lia.
Qed.

Lemma chunks_concat (s n : nat) (l : list Z) :
  length l = n * s →
  concat (map (λ i, take s (drop (i * s) l)) (seq 0 n)) = l.
Proof.
  intros Hlen. rewrite chunks_concat_take. apply take_ge. lia.
Qed.

Lemma tensor_slices_concat x N :
  Tensor.wf x → Tensor.leading x = Some N →
  concat (map (λ i, Tensor.data (Tensor.slice x i)) (seq 0 N)) = Tensor.data x.
Proof.
  unfold Tensor.wf, Tensor.leading, Tensor.slice. destruct x as [sh dat]; simpl.
  destruct sh as [|n rest]; simpl; [done|]. intros Hlen [= ->].
  by apply chunks_concat.
Qed.

Lemma target_record_masks masks boxes class_labels i :
  target_record masks boxes class_labels i !! "panoptic_masks" =
    Some (VTensor (Tensor.slice masks i)).
Proof.
  unfold target_record, with_field.
  destruct (slice_field class_labels i), (slice_field boxes i); by simplify_map_eq.
Qed.

(** X24.  Cutting a batch into records loses nothing: for well-formed
    tensors, the data of the [panoptic_masks], [instance_masks] and
    [bounding_boxes] entries of the prediction records, taken in order,
    is the data of [pred_panoptic_seg], [pred_masks] and [pred_boxes], and
    the [panoptic_masks] entries of the target records make up the mask
    tensor. *)
Theorem unbatching_is_lossless :
  (∀ (outputs : dict) logits pred_boxes pred_masks pred_panoptic_seg N,
     outputs !! "logits" = Some (VTensor logits) →
     outputs !! "pred_boxes" = Some (VTensor pred_boxes) →
     outputs !! "pred_masks" = Some (VTensor pred_masks) →
     outputs !! "pred_panoptic_seg" = Some (VTensor pred_panoptic_seg) →
     Tensor.leading logits = Some N →
     Tensor.leading pred_boxes = Some N →
     Tensor.leading pred_masks = Some N →
     Tensor.leading pred_panoptic_seg = Some N →
     Tensor.class_axis_nonempty logits →
     Tensor.wf pred_boxes → Tensor.wf pred_masks → Tensor.wf pred_panoptic_seg →
     ∃ records,
       format_predictions outputs = Ok records
       ∧ concat (map (record_data "panoptic_masks") records) =
           Tensor.data pred_panoptic_seg
       ∧ concat (map (record_data "instance_masks") records) = Tensor.data pred_masks
       ∧ concat (map (record_data "bounding_boxes") records) = Tensor.data pred_boxes)
  ∧
  (∀ (targets : dict) masks N,
     has_masks targets (VTensor masks) →
     Tensor.leading masks = Some N →
     optional_rows N (targets !! "bounding_boxes") →
     optional_rows N (targets !! "class_labels") →
     Tensor.wf masks →
     ∃ records,
       format_targets targets = Ok records
       ∧ concat (map (record_data "panoptic_masks") records) = Tensor.data masks).
Proof.
  split.
  - intros outputs logits pb pm ps N Hl Hb Hm Hs Ln Lb Lm Ls Hcls Wb Wm Ws.
    eexists. split.
    { eapply format_predictions_rows; eauto. }
    rewrite !map_map. unfold record_data, prediction_record.
    split; [|split].
    + rewrite <- (tensor_slices_concat ps N) by done. reflexivity.
    + rewrite <- (tensor_slices_concat pm N) by done. reflexivity.
    + rewrite <- (tensor_slices_concat pb N) by done. reflexivity.
  - intros targets masks N Hm Lm Hb Hc Wm.
    eexists. split; [by apply format_targets_rows_spare|].
    rewrite map_map. rewrite <- (tensor_slices_concat masks N) by done.
    f_equal. apply map_ext. intros i. unfold record_data.
    by rewrite target_record_masks.
Qed.

Lemma tensor_argmax_row_lt (row : list Z) (k : nat) :
  0 < k → length row ≤ k → Tensor.argmax_row row < k.
Proof.
  intros Hk Hlen. destruct (decide (row = [])) as [->|Hne]; [done|].
  destruct (tensor_argmax_row_max row Hne) as (v & Hv & _).
  apply lookup_lt_Some in Hv. lia.
Qed.

(** X25.  The class predictions are class indices.  When [logits] has
    shape [N, ..., K] with [K >= 1] classes on its last axis, the
    [class_predictions] entry of every record has the shape of a row of
    [logits] without its last axis, holds one entry per position, and every
    entry [v] satisfies [0 <= v < K]. *)
Theorem class_predictions_in_range (outputs : dict)
    logits pred_boxes pred_masks pred_panoptic_seg N rest K :
  outputs !! "logits" = Some (VTensor logits) →
  outputs !! "pred_boxes" = Some (VTensor pred_boxes) →
  outputs !! "pred_masks" = Some (VTensor pred_masks) →
  outputs !! "pred_panoptic_seg" = Some (VTensor pred_panoptic_seg) →
  Tensor.shape logits = N :: rest →
  last rest = Some K → 0 < K →
  Tensor.leading pred_boxes = Some N →
  Tensor.leading pred_masks = Some N →
  Tensor.leading pred_panoptic_seg = Some N →
  ∃ records,
    format_predictions outputs = Ok records ∧ length records = N ∧
    ∀ record, record ∈ records →
      record_shape "class_predictions" record = Some (removelast rest)
      ∧ length (record_data "class_predictions" record) =
          Tensor.numel (removelast rest)
      ∧ Forall (λ v, (0 ≤ v < Z.of_nat K)%Z) (record_data "class_predictions" record).
Proof.
  intros Hl Hb Hm Hs Hshape Hlast HK Lb Lm Ls.
  assert (Tensor.leading logits = Some N) as Ln
    by (unfold Tensor.leading; by rewrite Hshape).
  assert (Tensor.class_axis_nonempty logits) as Hcls.
  { unfold Tensor.class_axis_nonempty. rewrite Hshape. simpl. rewrite Hlast.
    intros [= ->]. lia. }
  eexists. split; [eapply format_predictions_rows; eauto|].
  split; [by rewrite length_map, length_seq|].
  intros record Hin. apply list_elem_of_In, in_map_iff in Hin as (i & <- & _).
  unfold record_shape, record_data, prediction_record.
  rewrite lookup_insert_ne, lookup_insert_ne, lookup_insert_ne, lookup_insert_eq
    by done.
  assert (Tensor.shape (Tensor.slice logits i) = rest) as Hsl
    by (unfold Tensor.slice; simpl; by rewrite Hshape).
  unfold Tensor.argmax_values. rewrite Hsl, Hlast.
  unfold Tensor.argmax_rows. cbn [Tensor.shape Tensor.data]. rewrite Hsl.
  split; [done|]. split; [by rewrite length_map, length_seq|].
  apply Forall_forall. intros v Hv.
  apply list_elem_of_In, in_map_iff in Hv as (j & <- & _).
  pose proof (tensor_argmax_row_lt
    (take K (drop (j * K) (Tensor.data (Tensor.slice logits i)))) K HK) as Hlt.
  rewrite length_take in Hlt. lia.
Qed.

(** ** The trainer object and the records on samples *)

Lemma test_stores_arguments_before_guard_witness :
  UnifiedTrainer.test Sample3.float_is_zero Sample4.init_callbacks
    Sample4.distributed_trainer Sample4.prepare_trainer Sample4.local_trainer
    Sample4.run_test (Sample4.fresh Sample4.local_config) (Some 7) None =
    (UnifiedTrainer.mk Sample4.local_config (Some 7) None None None,
     Raise (ValueError UnifiedTrainer.missing_message)).
Proof.
  apply (test_stores_arguments_before_guard Sample3.float_is_zero
           Sample4.init_callbacks Sample4.distributed_trainer Sample4.local_trainer
           Sample4.prepare_trainer Sample4.run_test
           (Sample4.fresh Sample4.local_config) (Some 7) None).
  right. split; reflexivity.
Defined.

Lemma test_after_failed_prepare_witness :
  UnifiedTrainer.test Sample3.float_is_zero Sample4.init_callbacks
    Sample4.distributed_trainer Sample4.prepare_trainer Sample4.local_trainer
    Sample4.run_test (Sample4.loaded Sample3.cpu_only) None None =
    (UnifiedTrainer.set_trainer "unprepared" (Sample4.loaded Sample3.cpu_only),
     Raise (ValueError "no Ray session"))
  ∧ UnifiedTrainer.test Sample3.float_is_zero Sample4.init_callbacks
      Sample4.distributed_trainer Sample4.prepare_trainer Sample4.local_trainer
      Sample4.run_test
      (UnifiedTrainer.set_trainer "unprepared" (Sample4.loaded Sample3.cpu_only))
      None None =
      (UnifiedTrainer.set_trainer "unprepared" (Sample4.loaded Sample3.cpu_only),
       Ok ("unprepared", 15)).
Proof.
  exact (test_after_failed_prepare Sample3.float_is_zero Sample4.init_callbacks
           Sample4.distributed_trainer Sample4.local_trainer Sample4.prepare_trainer
           Sample4.run_test (Sample4.loaded Sample3.cpu_only) 7 8
           ["checkpoint"; "early_stopping"] "unprepared"
           (ValueError "no Ray session")
           eq_refl eq_refl eq_refl eq_refl eq_refl eq_refl eq_refl).
Defined.

Lemma test_builds_trainer_once_witness :
  UnifiedTrainer.test Sample3.float_is_zero Sample4.init_callbacks
    Sample4.distributed_trainer Sample4.prepare_trainer Sample4.local_trainer
    Sample4.run_test (Sample4.loaded Sample4.local_config) None None =
    (UnifiedTrainer.set_trainer "local" (Sample4.loaded Sample4.local_config),
     Ok ("local", 15))
  ∧ UnifiedTrainer.test Sample3.float_is_zero Sample4.failing_callbacks
      Sample4.distributed_trainer Sample4.prepare_trainer Sample4.local_trainer
      Sample4.run_test
      (UnifiedTrainer.set_trainer "local" (Sample4.loaded Sample4.local_config))
      None None =
      (UnifiedTrainer.set_trainer "local" (Sample4.loaded Sample4.local_config),
       Ok ("local", 15)).
Proof.
  exact (test_builds_trainer_once Sample3.float_is_zero Sample4.init_callbacks
           Sample4.distributed_trainer Sample4.local_trainer Sample4.prepare_trainer
           Sample4.run_test (Sample4.loaded Sample4.local_config) 7 8
           ["checkpoint"; "early_stopping"] "local"
           Sample4.failing_callbacks Sample4.distributed_trainer
           Sample4.local_trainer Sample4.prepare_trainer
           eq_refl eq_refl eq_refl eq_refl eq_refl eq_refl).
Defined.

Lemma unbatching_is_lossless_witness :
  (∃ records,
     format_predictions Sample.fields = Ok records
     ∧ concat (map (record_data "panoptic_masks") records) = [3; 3; 4; 4]%Z
     ∧ concat (map (record_data "instance_masks") records) = [1; 0; 0; 1]%Z
     ∧ concat (map (record_data "bounding_boxes") records) =
         [0; 0; 4; 4; 1; 1; 3; 3]%Z)
  ∧
  (∃ records,
     format_targets Sample2.annotation = Ok records
     ∧ concat (map (record_data "panoptic_masks") records) = [3; 3; 4; 4]%Z).
Proof.
  split.
  - apply (proj1 unbatching_is_lossless Sample.fields Sample.logits
             Sample.pred_boxes Sample.pred_masks Sample.pred_panoptic_seg 2);
      try reflexivity. discriminate.
  - apply (proj2 unbatching_is_lossless Sample2.annotation
             Sample.pred_panoptic_seg 2); try reflexivity.
    + left. reflexivity.
    + right. right. exists Sample.pred_boxes, 2.
      split; [reflexivity|]. split; [reflexivity|]. repeat constructor.
    + right. right. exists Sample2.class_labels, 2.
      split; [reflexivity|]. split; [reflexivity|]. repeat constructor.
Defined.

Lemma class_predictions_in_range_witness :
  ∃ records,
    format_predictions Sample.fields = Ok records ∧ length records = 2 ∧
    ∀ record, record ∈ records →
      record_shape "class_predictions" record = Some [1]
      ∧ length (record_data "class_predictions" record) = 1
      ∧ Forall (λ v, (0 ≤ v < 3)%Z) (record_data "class_predictions" record).
Proof.
  apply (class_predictions_in_range Sample.fields Sample.logits Sample.pred_boxes
           Sample.pred_masks Sample.pred_panoptic_seg 2 [1; 3] 3);
    try reflexivity. repeat constructor.
Defined.
